(** * drizzlepac: mask construction, IR count-rate test and alignment verification

    A shallow embedding of three source files of the repository:

    - [lib/buildmask.py]  (module [BuildMask]),
    - [lib/irData.py]     (module [IRData]),
    - [drizzlepac/runaligndriz.py] (module [RunAlignDriz]).

    Python values are modelled as follows.  Integer arrays are lists of rows
    of [Z]; dictionaries are [gmap]s; files live in a finite map from names
    to contents; a function that may raise returns a [result]. *)

From Stdlib Require Import ZArith QArith Bool.
From stdpp Require Import gmap strings list fin_maps.

Local Open Scope string_scope.
Local Open Scope list_scope.
Local Open Scope Z_scope.

(** ** Python exceptions and results *)

(** The exception classes that the modelled code can raise or observe. *)
Inductive exn : Type :=
| IOError (what : string)            (* IOError / OSError on a file *)
| NameError (name : string)          (* global name not defined *)
| UnboundLocalError (name : string)  (* local referenced before assignment *)
| KeyError (key : string)
| IndexError
| AttributeError (attr : string)
| ValueError (msg : string)
| TypeError (msg : string)
| Exception_ (msg : string).         (* plain [Exception(msg)] *)

(** [UnboundLocalError] is a subclass of [NameError]. *)
Definition isinstance_NameError (e : exn) : bool :=
  match e with
  | NameError _ | UnboundLocalError _ => true
  | _ => false
  end.

Inductive result (A : Type) : Type :=
| Ret (a : A)
| Raise (e : exn).
Arguments Ret {A} a.
Arguments Raise {A} e.

(** ** Strings *)

(** [substr_in sub s] is Python's [sub in s]. *)
Fixpoint substr_in (sub s : string) : bool :=
  String.prefix sub s ||
  match s with
  | EmptyString => false
  | String _ s' => substr_in sub s'
  end.

(** [str_replace old new s] is [s.replace(old, new)] for a non-empty [old]:
    every non-overlapping occurrence, left to right.  [skip] counts the
    characters of an occurrence already replaced. *)
Fixpoint str_replace_from (old new : string) (skip : nat) (s : string) : string :=
  match s with
  | EmptyString => EmptyString
  | String c s' =>
      match skip with
      | S k => str_replace_from old new k s'
      | O =>
          if String.prefix old s
          then new +:+ str_replace_from old new (String.length old - 1) s'
          else String c (str_replace_from old new 0 s')
      end
  end.

Definition str_replace (old new s : string) : string :=
  str_replace_from old new 0 s.

(** The newline character. *)
Definition nl : string := String (Ascii.ascii_of_nat 10) EmptyString.

(** [str_endswith suf s] is [s.endswith(suf)]. *)
Definition str_endswith (suf s : string) : bool :=
  String.prefix (String.rev suf) (String.rev s).

(** * lib/buildmask.py *)

Module BuildMask.

(** A two-dimensional numpy array: its rows.  The element type is recorded
    because [buildMask] returns a float array in one branch and a [uint8]
    array in the other; the float values that occur there are the integers
    0.0 and 1.0 and are stored as [0] and [1]. *)
Inductive dtype : Type := UInt8 | UInt16 | Int16 | Int64 | Float64.

Record ndarray : Type := NDArray {
  arr_dtype : dtype;
  arr_data : list (list Z)
}.

Definition shape (a : list (list Z)) : list nat := map length a.

(** [a[r, c]] *)
Definition get2 (a : list (list Z)) (r c : nat) : option Z :=
  a !! r ≫= fun row => row !! c.

(** [buildMask(dqarr, bitvalue)], lines 79-84.

    - [bitvalue == None]: [(dqarr * 0.0) + 1.0];
    - otherwise [_maskarr = N.bitwise_or(dqarr, N.array([bitvalue]))] and
      [N.choose(N.greater(_maskarr, bitvalue), (1, 0)).astype(N.uint8)]:
      index [False] selects 1 and index [True] selects 0. *)
Definition buildMask (dqarr : ndarray) (bitvalue : option Z) : ndarray :=
  match bitvalue with
  | None =>
      NDArray Float64 (map (map (fun d => d * 0 + 1)) (arr_data dqarr))
  | Some bit =>
      let _maskarr := map (map (fun d => Z.lor d bit)) (arr_data dqarr) in
      NDArray UInt8 (map (map (fun m => if m >? bit then 0 else 1)) _maskarr)
  end.

(** Every entry of [a] is 0 or 1. *)
Definition binary (a : list (list Z)) : Prop :=
  ∀ r c m, get2 a r c = Some m → m = 0 ∨ m = 1.

(** *** The WFPC2 shadow mask, lines 216-226 *)

(** [N.fromfunction(f, (h, w))]: entry [(r, c)] is [f r c]. *)
Definition fromfunction (f : nat → nat → Z) (h w : nat) : list (list Z) :=
  map (λ r, map (λ c, f r c) (seq 0 w)) (seq 0 h).

(** The edge polynomials [_func_Shadow_WF<n>x] and [_func_Shadow_WF<n>y]
    (lines 163-181) are evaluated by numpy in floating point.  Of their
    values the code keeps [N.clip(v, 0.0, 1.0).astype(N.uint8)], which is 1
    when [v >= 1.0] and 0 otherwise.  [reaches_one name x y] is that
    comparison for the function called [name] at the indices [(x, y)]. *)
Class ShadowEdges : Type := { reaches_one : string → nat → nat → bool }.

(** The eight function names that [eval] can resolve. *)
Definition shadow_func_names : list string :=
  [ "_func_Shadow_WF1x"; "_func_Shadow_WF1y"; "_func_Shadow_WF2x"; "_func_Shadow_WF2y";
    "_func_Shadow_WF3x"; "_func_Shadow_WF3y"; "_func_Shadow_WF4x"; "_func_Shadow_WF4y" ].

(** [eval(name)]: the function, or a [NameError] for an undefined name. *)
Definition eval_func `{ShadowEdges} (name : string) : result (nat → nat → bool) :=
  if bool_decide (name ∈ shadow_func_names) then Ret (reaches_one name)
  else Raise (NameError name).

(** [N.clip(N.fromfunction(f, (800, 800)), 0.0, 1.0).astype(N.uint8)] *)
Definition clipped_edge (f : nat → nat → bool) : list (list Z) :=
  fromfunction (λ x y, Z.b2z (f x y)) 800 800.

(** Elementwise product of two [uint8] arrays of one shape. *)
Definition mul_u8 (a b : list (list Z)) : list (list Z) :=
  zip_with (zip_with (λ x y, (x * y) mod 256)) a b.

(** The slice [l[start::2]] for [start] 0 ([keep = true]) or 1. *)
Fixpoint every_other {A : Type} (keep : bool) (l : list A) : list A :=
  match l with
  | [] => []
  | x :: t => if keep then x :: every_other false t else every_other true t
  end.

(** [a[r0::2, c0::2]] read out as an array of its own ([r0], [c0] in {0, 1}). *)
Definition slice2 (r0 c0 : nat) (a : list (list Z)) : list (list Z) :=
  map (every_other (Nat.eqb c0 0)) (every_other (Nat.eqb r0 0) a).

(** [a[r, c] = v], in place. *)
Definition set2 (a : list (list Z)) (r c : nat) (v : Z) : list (list Z) :=
  alter (λ row, <[c := v]> row) r a.

(** The index pairs of an array of shape [(h, w)] in row-major order. *)
Definition cells (h w : nat) : list (nat * nat) :=
  i ← seq 0 h; (λ j, (i, j)) <$> seq 0 w.

(** One element of [bmaskarr *= maskarr[r0::2, c0::2]] where [bmaskarr] is
    the view [maskarr[::2, ::2]]: the product is stored into the buffer of
    [maskarr] at [(2i, 2j)], and the right operand is read from the same
    buffer, as it is at that moment, at [(2i + r0, 2j + c0)]. *)
Definition imul_cell (r0 c0 : nat) (buf : list (list Z)) (ij : nat * nat) : list (list Z) :=
  match get2 buf (2 * ij.1) (2 * ij.2), get2 buf (2 * ij.1 + r0) (2 * ij.2 + c0) with
  | Some x, Some y => set2 buf (2 * ij.1) (2 * ij.2) ((x * y) mod 256)
  | _, _ => buf
  end.

(** The value that one step of the in-place product leaves at [(2i, 2j)]. *)
Definition cell_product (r0 c0 : nat) (buf : list (list Z)) (ij : nat * nat) : option Z :=
  match get2 buf (2 * ij.1) (2 * ij.2), get2 buf (2 * ij.1 + r0) (2 * ij.2 + c0) with
  | Some x, Some y => Some ((x * y) mod 256)
  | _, _ => get2 buf (2 * ij.1) (2 * ij.2)
  end.

(** [bmaskarr *= maskarr[r0::2, c0::2]] on the shared buffer.  numpy wants
    the right operand to have the shape of the view (it raises [ValueError]
    otherwise; broadcasting of an axis of length 1 is left out: the arrays
    here are 800 by 800). *)
Definition imul_view (r0 c0 : nat) (buf : list (list Z)) : result (list (list Z)) :=
  if decide (shape (slice2 r0 c0 buf) = shape (slice2 0 0 buf))
  then
    let h := length (slice2 0 0 buf) in
    let w := length (default [] (slice2 0 0 buf !! 0%nat)) in
    Ret (foldl (imul_cell r0 c0) buf (cells h w))
  else Raise (ValueError "operands could not be broadcast together").

(** Lines 222-226:
<<
    bmaskarr = maskarr[::2,::2]
    bmaskarr *= maskarr[1::2,::2]
    bmaskarr *= maskarr[::2,1::2]
    bmaskarr *= maskarr[1::2,1::2]
    maskarr = bmaskarr.copy()
>> *)
Definition bin_maskarr (maskarr : list (list Z)) : result (list (list Z)) :=
  match imul_view 1 0 maskarr with
  | Raise e => Raise e
  | Ret buf1 =>
      match imul_view 0 1 buf1 with
      | Raise e => Raise e
      | Ret buf2 =>
          match imul_view 1 1 buf2 with
          | Raise e => Raise e
          | Ret buf3 => Ret (slice2 0 0 buf3)
          end
      end
  end.

(** Lines 213-227: the template shadow mask of detector [detnum]. *)
Definition shadow_maskarr `{ShadowEdges} (detnum : string) (binned : Z)
  : result (list (list Z)) :=
  let _funcx := "_func_Shadow_WF" +:+ detnum +:+ "x" in
  let _funcy := "_func_Shadow_WF" +:+ detnum +:+ "y" in
  match eval_func _funcx with
  | Raise e => Raise e
  | Ret fx =>
      let _xarr := clipped_edge fx in
      match eval_func _funcy with
      | Raise e => Raise e
      | Ret fy =>
          let _yarr := clipped_edge fy in
          let maskarr := mul_u8 _xarr _yarr in
          if decide (binned ≠ 1) then bin_maskarr maskarr else Ret maskarr
      end
  end.


(** *** Mask files, lines 87-152 and 186-288 *)

(** A FITS file as the code sees it through [pyfits]: a list of header-data
    units, each with the [EXTNAME] and [EXTVER] keywords it may carry and
    its data array, if any. *)
Record hdu : Type := HDU {
  hdu_extname : option string;
  hdu_extver : option Z;
  hdu_data : option ndarray
}.

(** The files on disk by name, and what has been printed. *)
Record world : Type := World {
  files : gmap string (list hdu);
  stdout : list string
}.

(** [fileutil.findFile(name)] *)
Definition findFile (name : string) (w : world) : bool :=
  bool_decide (is_Some (files w !! name)).

(** [fileutil.removeFile(name)] and [os.remove(name)] of an existing file. *)
Definition removeFile (name : string) (w : world) : world :=
  World (delete name (files w)) (stdout w).

(** [fileutil.openImage(name)]: the units of the file, [IOError] if there is
    no such file. *)
Definition openImage (name : string) (w : world) : result (list hdu) :=
  match files w !! name with
  | Some f => Ret f
  | None => Raise (IOError name)
  end.

(** [fileutil.findExtname(fimg, extname, extver)]: the index of the first
    unit whose [EXTNAME] is [extname] (the callers pass the upper-case names
    ['DQ'] and ['SCI']) and whose [EXTVER] is [extver]. *)
Fixpoint findExtname_from (i : nat) (fimg : list hdu) (extname : string) (extver : Z)
  : option nat :=
  match fimg with
  | [] => None
  | h :: rest =>
      if bool_decide (hdu_extname h = Some extname ∧ hdu_extver h = Some extver)
      then Some i
      else findExtname_from (S i) rest extname extver
  end.

Definition findExtname := findExtname_from 0.

(** [f = pyfits.open(name, 'append'); f.append(pyfits.PrimaryHDU(data=arr)); f.close()] *)
Definition append_PrimaryHDU (name : string) (arr : ndarray) (w : world) : world :=
  World (<[name := (default [] (files w !! name) ++ [HDU None None (Some arr)])%list]> (files w))
        (stdout w).

(** [print s] *)
Definition print (s : string) (w : world) : world :=
  World (files w) (stdout w ++ [s])%list.

(** [fileutil.copyFile(input, output, replace=True)] *)
Definition copyFile (input output : string) (w : world) : result unit * world :=
  match files w !! input with
  | Some f => (Ret (), World (<[output := f]> (files w)) (stdout w))
  | None => (Raise (IOError input), w)
  end.

(** [N.zeros(a.shape, dtype=N.uint16)] *)
Definition zeros_like (a : ndarray) : ndarray :=
  NDArray UInt16 (map (map (λ _, 0)) (arr_data a)).

(** The body of the [try] of [buildMaskImage], lines 109-138. *)
Definition buildMaskImage_try (fdq : list hdu) (bitvalue : option Z) (maskname : string)
    (extname : string) (extver : Z) (w : world) : result unit * world :=
  let _extn := findExtname fdq extname extver in
  let dqarr :=
    match _extn with
    | Some n => (fdq !! n) ≫= hdu_data
    | None => None
    end in
  let dqarr' :=
    match dqarr with
    | Some d => Ret d
    | None =>
        match findExtname fdq "SCI" extver with
        | Some _sci_extn =>
            match (fdq !! _sci_extn) ≫= hdu_data with
            | Some sci => Ret (zeros_like sci)
            | None => Raise (AttributeError "shape")
            end
        | None => Raise (Exception_ "")
        end
    end in
  match dqarr' with
  | Raise e => (Raise e, w)
  | Ret d =>
      let maskarr := buildMask d bitvalue in
      (Ret (), append_PrimaryHDU maskname maskarr w)
  end.

(** [buildMaskImage(rootname, bitvalue, output, extname='DQ', extver=1)]:
    the name of the mask written, or [None]. *)
Definition buildMaskImage (rootname : string) (bitvalue : option Z) (output : string)
    (extname : string) (extver : Z) (w : world) : result (option string) * world :=
  let maskname := output in
  let w1 := if findFile maskname w then removeFile maskname w else w in
  match openImage rootname w1 with
  | Raise e => (Raise e, w1)
  | Ret fdq =>
      match buildMaskImage_try fdq bitvalue maskname extname extver w1 with
      | (Ret _, w2) => (Ret (Some maskname), w2)
      | (Raise _, w2) =>
          let w3 := if findFile maskname w2 then removeFile maskname w2 else w2 in
          let _errstr := nl +:+ "Warning: Problem creating MASK file for " +:+ rootname +:+ "." +:+ nl in
          (Ret None, print _errstr w3)
      end
  end.

(** [fdq[int(extnum)]] with Python's negative indices. *)
Definition hdu_at (fdq : list hdu) (extnum : Z) : result hdu :=
  let n := Z.of_nat (length fdq) in
  let i := if extnum <? 0 then extnum + n else extnum in
  if (0 <=? i) && (i <? n)
  then match fdq !! Z.to_nat i with Some h => Ret h | None => Raise IndexError end
  else Raise IndexError.

(** The body of the second [try] of [buildShadowMaskImage], lines 258-273. *)
Definition buildShadowMaskImage_try (fdq : list hdu) (extnum : Z) (bitvalue : option Z)
    (maskname : string) (w : world) : result unit * world :=
  match hdu_at fdq extnum with
  | Raise e => (Raise e, w)
  | Ret h =>
      match hdu_data h with
      | None => (Raise (TypeError "bitwise_or"), w)
      | Some dqarr =>
          let dqmaskarr := buildMask dqarr bitvalue in
          (Ret (), append_PrimaryHDU maskname dqmaskarr w)
      end
  end.

(** [buildShadowMaskImage(dqfile, detnum, extnum, maskname, bitvalue=None, binned=1)].

    The handler of the second [try] (lines 275-284) builds its message from
    [rootname], which is neither a parameter, nor a local, nor a global of
    the module: evaluating it raises [NameError] inside the handler. *)
Definition buildShadowMaskImage `{ShadowEdges} (dqfile detnum : string) (extnum : Z)
    (maskname : string) (bitvalue : option Z) (binned : Z) (w : world)
  : result (option string) * world :=
  let _mask := "wfpc2_inmask" +:+ detnum +:+ ".fits" in
  let w1 := if findFile maskname w then removeFile maskname w else w in
  let _use_inmask := negb (findFile dqfile w1) || bool_decide (bitvalue = None) in
  let template : option world :=
    if _use_inmask && negb (findFile _mask w1) then
      match shadow_maskarr detnum binned with
      | Raise _ => None
      | Ret maskarr => Some (append_PrimaryHDU _mask (NDArray UInt8 maskarr) w1)
      end
    else Some w1 in
  match template with
  | None => (Ret None, w1)
  | Some w2 =>
      if negb (findFile dqfile w2) then
        let w3 := print ("DQ file  " +:+ dqfile +:+ "  NOT found...") w2 in
        let w4 := print ("Copying  " +:+ _mask +:+ " to  " +:+ maskname +:+ "  as input mask file.") w3 in
        match copyFile _mask maskname w4 with
        | (Raise e, w5) => (Raise e, w5)
        | (Ret _, w5) => (Ret (Some maskname), w5)
        end
      else if bool_decide (bitvalue = None) then
        match copyFile _mask maskname w2 with
        | (Raise e, w3) => (Raise e, w3)
        | (Ret _, w3) => (Ret (Some maskname), w3)
        end
      else
        match openImage dqfile w2 with
        | Raise e => (Raise e, w2)
        | Ret fdq =>
            match buildShadowMaskImage_try fdq extnum bitvalue maskname w2 with
            | (Ret _, w3) => (Ret (Some maskname), w3)
            | (Raise _, w3) =>
                let w4 := if findFile maskname w3 then removeFile maskname w3 else w3 in
                (Raise (NameError "rootname"), w4)
            end
        end
  end.

(** *** Inputs for the examples *)

(** Edge functions that reach 1.0 from index 50 on. *)
Definition edges_from_50 : ShadowEdges :=
  {| reaches_one := λ _ x y, (50 <=? x)%nat && (50 <=? y)%nat |}.

(** A DQ file of one group: a primary unit without data and one image. *)
Definition c1h_one_group : list hdu :=
  [ HDU None None None;
    HDU (Some "SCI") (Some 1) (Some (NDArray Int16 [[0; 4]; [8; 0]])) ].

Definition disk_one_group : world :=
  World {[ "u2440101t.c1h" := c1h_one_group ]} [].

(** A file with neither a [DQ] nor a [SCI] extension. *)
Definition disk_no_dq : world :=
  World {[ "j8c0d1bwq_flt.fits" := [HDU None None None] ]} [].

End BuildMask.

(** * lib/irData.py *)

Module IRData.

(** The value of a header keyword: a string, or something else (a number,
    a boolean) that has no [find] method. *)
Inductive hval : Type :=
| HStr (s : string)
| HOther (z : Z).

(** [s.find("/") != -1] *)
Definition has_slash (s : string) : bool := substr_in "/" s.

(** [IRInputImage.isCountRate(self)], lines 27-39, on [self.header]:
<<
    if self.header.has_key('BUNIT'):
        if self.header['BUINT'].find("/") != -1:
            return True
    else:
        return False
>>
    The result is [Some true], [Some false], or [None] when the end of the
    body is reached without a [return]. *)
Definition isCountRate (header : gmap string hval) : result (option bool) :=
  if bool_decide (is_Some (header !! "BUNIT")) then
    match header !! "BUINT" with
    | None => Raise (KeyError "BUINT")
    | Some (HOther _) => Raise (AttributeError "find")
    | Some (HStr s) => if has_slash s then Ret (Some true) else Ret None
    end
  else Ret (Some false).

(** *** Inputs for the examples *)

Definition header_both_keys : gmap string hval :=
  <["BUINT" := HStr "ELECTRONS/S"]> (<["BUNIT" := HStr "ELECTRONS/S"]> ∅).

Definition header_bunit : gmap string hval :=
  <["BUNIT" := HStr "ELECTRONS/S"]> ∅.

End IRData.

(** * drizzlepac/runaligndriz.py *)

Module RunAlignDriz.

(** ** The process state

    A directory is the list of the names on its absolute path; a file is
    found by its directory and its name and holds text.  The file names the
    pipeline passes around ([inlist], [calfiles], the products, the trailer
    file) are plain names, resolved in the current working directory, and
    [tmpdir] is the plain name of a sub-directory, as in the three calls of
    [process].  What is printed on the terminal is not recorded. *)
Record world : Type := World {
  cwd : list string;                            (* os.getcwd() *)
  dirs : gset (list string);                    (* the directories that exist *)
  readonly : gset (list string);                (* directories that refuse writes *)
  files : gmap (list string * string) string    (* the files and their text *)
}.

(** A computation that reads and writes the process state and may raise. *)
Definition M (A : Type) : Type := world → result A * world.

Definition ret {A : Type} (a : A) : M A := λ w, (Ret a, w).

Definition raise {A : Type} (e : exn) : M A := λ w, (Raise e, w).

Definition bind {A B : Type} (m : M A) (k : A → M B) : M B :=
  λ w, match m w with
       | (Ret a, w') => k a w'
       | (Raise e, w') => (Raise e, w')
       end.

Declare Scope M_scope.
Delimit Scope M_scope with M.
Bind Scope M_scope with M.
Notation "'let*' x := m 'in' k" := (bind m (λ x, k))
  (at level 10, x name, m at level 100, k at level 200) : M_scope.
Notation "m ;;; k" := (bind m (λ _, k))
  (at level 100, k at level 200, right associativity) : M_scope.
Local Open Scope M_scope.

(** [try: m  except Exception: h] *)
Definition try_except {A : Type} (m : M A) (h : exn → M A) : M A :=
  λ w, match m w with
       | (Ret a, w') => (Ret a, w')
       | (Raise e, w') => h e w'
       end.

(** [for x in l: f x] *)
Fixpoint for_each {A : Type} (f : A → M unit) (l : list A) : M unit :=
  match l with
  | [] => ret ()
  | x :: t => f x ;;; for_each f t
  end.

(** *** The file system *)

(** [os.getcwd()] *)
Definition getcwd : M (list string) := λ w, (Ret (cwd w), w).

(** [os.chdir(d)] for the absolute path [d]. *)
Definition chdir (d : list string) : M unit :=
  λ w, if bool_decide (d ∈ dirs w)
       then (Ret (), World d (dirs w) (readonly w) (files w))
       else (Raise (IOError "chdir"), w).

(** [os.path.isdir(d)] for the absolute path [d]. *)
Definition isdir (d : list string) : M bool :=
  λ w, (Ret (bool_decide (d ∈ dirs w)), w).

(** Whether the directory [d] refuses writes. *)
Definition is_readonly (d : list string) : M bool :=
  λ w, (Ret (bool_decide (d ∈ readonly w)), w).

(** The text of the file [name] of the directory [d], if there is one. *)
Definition lookup_file (d : list string) (name : string) : M (option string) :=
  λ w, (Ret (files w !! (d, name)), w).

(** [os.chdir(name)] for a name in the working directory. *)
Definition chdir_rel (name : string) : M unit :=
  let* d := getcwd in chdir (d ++ [name]).

(** [os.path.exists(name)] *)
Definition path_exists (name : string) : M bool :=
  let* d := getcwd in
  let* is_d := isdir (d ++ [name]) in
  let* f := lookup_file d name in
  ret (is_d || bool_decide (is_Some f)).

(** [os.makedirs(name)] *)
Definition makedirs (name : string) : M unit :=
  let* d := getcwd in
  let* ro := is_readonly d in
  let* there := path_exists name in
  if ro || there then raise (IOError "makedirs")
  else λ w, (Ret (), World (cwd w) ({[ d ++ [name] ]} ∪ dirs w) (readonly w) (files w)).

(** Storing the text of the file [name] of the directory [d]. *)
Definition store (d : list string) (name : string) (text : string) : M unit :=
  let* is_d := isdir d in
  let* ro := is_readonly d in
  if is_d && negb ro
  then λ w, (Ret (), World (cwd w) (dirs w) (readonly w) (<[(d, name) := text]> (files w)))
  else raise (IOError name).

(** The text of the file [name] of the working directory. *)
Definition read_file (name : string) : M string :=
  let* d := getcwd in
  let* f := lookup_file d name in
  match f with
  | Some text => ret text
  | None => raise (IOError name)
  end.

(** [f = open(name, 'w'); f.write(text); f.close()] *)
Definition write_file (name text : string) : M unit :=
  let* d := getcwd in store d name text.

(** [f = open(name, 'a'); f.write(text); f.close()] *)
Definition append_file (name text : string) : M unit :=
  let* d := getcwd in
  let* f := lookup_file d name in
  store d name (default "" f +:+ text).

(** [os.remove(name)] *)
Definition remove (name : string) : M unit :=
  let* d := getcwd in
  let* f := lookup_file d name in
  let* ro := is_readonly d in
  match f with
  | Some _ =>
      if ro then raise (IOError name)
      else λ w, (Ret (), World (cwd w) (dirs w) (readonly w) (delete (d, name) (files w)))
  | None => raise (IOError name)
  end.

(** [shutil.copy(src, dst)] where [dst] is an absolute path.  When [dst] is
    a directory the copy keeps the name of [src] there; otherwise the copy
    is the file of the path [dst]. *)
Definition shutil_copy (src : string) (dst : list string) : M unit :=
  let* text := read_file src in
  let* is_d := isdir dst in
  if is_d then store dst src text
  else store (removelast dst) (List.last dst "") text.

(** [shutil.copy(src, name)] for a name in the working directory. *)
Definition shutil_copy_rel (src name : string) : M unit :=
  let* d := getcwd in shutil_copy src (d ++ [name]).

(** *** Values *)

(** A value of the keyword dictionary [pipeline_pars]. *)
Inductive pval : Type :=
| PBool (b : bool)
| PInt (z : Z)
| PFloat (q : Q)
| PStr (s : string)
| PNone.

(** The dictionary that [amutils.build_focus_dict] returns: the code reads
    its key ['prodname']; the rest is kept as text. *)
Record focus_dict : Type := FocusDict {
  prodname : string;
  focus_info : string
}.

(** A row of the table that [alignimages.perform_align] returns. *)
Record align_row : Type := AlignRow {
  status : Z;
  imageName : string;
  catalog : string;
  headerletFile : string
}.

(** *** Collaborators

    The packages the module calls are not part of the modelled code.  A call
    of one of them sees the working directory, reads and writes files, and
    returns or raises; it does not change the working directory. *)
Definition ext (A : Type) : Type :=
  list string → gmap (list string * string) string
  → result A * gmap (list string * string) string.

Class Collaborators : Type := {
  (* stwcs.updatewcs.updatewcs(files, use_db=...) *)
  updatewcs : list string → bool → ext unit;
  (* alignimages.perform_align(files, update_hdr_wcs=True, runfile=..., clobber=False) *)
  perform_align : list string → string → ext (list align_row);
  (* headerlet.apply_headerlet_as_primary(fltfile, headerletFile, attach=True, archive=True) *)
  apply_headerlet_as_primary : string → string → ext unit;
  (* processInput.process_input(infile, ...): asndict['original_file_names'] and drz_product *)
  process_input : string → ext (list string * string);
  (* drizzlepac.astrodrizzle.AstroDrizzle(input=infile, configobj=None, **pipeline_pars) *)
  AstroDrizzle : string → gmap string pval → ext unit;
  (* util.end_logging(drizlog) *)
  end_logging : string → ext unit;
  (* amutils.build_focus_dict(single_files, drz_product) *)
  build_focus_dict : list string → string → ext focus_dict;
  (* amutils.evaluate_focus(focus_dict) *)
  evaluate_focus : focus_dict → result bool;
  (* amutils.compute_similarity(image, reference) on the data of two images *)
  compute_similarity : string → string → result Q;
  (* json.dump(focus_dicts, file): the text written *)
  json_dump : list focus_dict → string;
  (* time.strftime(format, time.localtime()) at the time of the run *)
  strftime : string → string;
  (* drizzlepac.astrodrizzle.__version__ *)
  pyver : string;
  (* "{}".format(x) for a float *)
  format_float : Q → string
}.

Section WithCollaborators.
Context `{Collaborators}.

(** A call of a collaborator. *)
Definition call {A : Type} (f : ext A) : M A :=
  λ w, let '(r, fs) := f (cwd w) (files w) in
       (r, World (cwd w) (dirs w) (readonly w) fs).

(** A result that needs no state. *)
Definition lift {A : Type} (r : result A) : M A := λ w, (r, w).

(** [str(e)] and [str(type(e))] of an exception. *)
Definition exn_str (e : exn) : string :=
  match e with
  | IOError s | NameError s | UnboundLocalError s | KeyError s
  | AttributeError s | ValueError s | TypeError s | Exception_ s => s
  | IndexError => "list index out of range"
  end.

Definition exn_class (e : exn) : string :=
  match e with
  | IOError _ => "<class 'OSError'>"
  | NameError _ => "<class 'NameError'>"
  | UnboundLocalError _ => "<class 'UnboundLocalError'>"
  | KeyError _ => "<class 'KeyError'>"
  | IndexError => "<class 'IndexError'>"
  | AttributeError _ => "<class 'AttributeError'>"
  | ValueError _ => "<class 'ValueError'>"
  | TypeError _ => "<class 'TypeError'>"
  | Exception_ _ => "<class 'Exception'>"
  end.

(** [n * c] for a string [c]. *)
Fixpoint str_repeat (n : nat) (c : string) : string :=
  match n with
  | O => ""
  | S k => c +:+ str_repeat k c
  end.

(** Lines 94-95 and 108. *)
Definition __version__ : string := "2.0.0".
Definition __version_date__ : string := "(25-Sep-2019)".
Definition __trlmarker__ : string :=
  "*** astrodrizzle Processing Version " +:+ __version__ +:+ __version_date__ +:+ "***" +:+ nl.

(** [_timestamp(_process_name)], lines 750-754. *)
Definition _timestamp (_process_name : string) : string :=
  let _prefix := strftime "%Y%j%H%M%S-I-----" in
  let _lenstr := (60 - String.length _process_name)%nat in
  _prefix +:+ _process_name +:+ str_repeat _lenstr "-" +:+ nl.

(** [_getTime()], lines 756-761. *)
Definition _getTime : string := strftime "%H:%M:%S (%d-%b-%Y)".

(** [_appendTrlFile(trlfile, drizfile)], lines 727-748. *)
Definition _appendTrlFile (trlfile drizfile : string) : M unit :=
  let* there := path_exists drizfile in
  if negb there then ret ()
  else
    let* _dlines := read_file drizfile in
    append_file trlfile _dlines ;;;
    remove drizfile.

(** [_updateTrlFile(trlfile, trl_lines)], lines 715-724. *)
Definition _updateTrlFile (trlfile trl_lines : string) : M unit :=
  let tmptrl := str_replace ".tra" "_tmp.tra" trlfile in
  write_file tmptrl trl_lines ;;;
  _appendTrlFile trlfile tmptrl.

(** *** [run_driz], lines 473-536 *)

(** The handler of lines 505-515. *)
Definition run_driz_except (trlfile drizlog _pyd_err infile : string) (errorobj : exn)
  : M unit :=
  _appendTrlFile trlfile drizlog ;;;
  _appendTrlFile trlfile _pyd_err ;;;
  append_file trlfile
    ("ERROR: Could not complete astrodrizzle processing of " +:+ infile +:+ "." +:+ nl
     +:+ exn_class errorobj +:+ ": " +:+ exn_str errorobj +:+ nl) ;;;
  raise (Exception_ (exn_str errorobj)).

(** The loop of lines 483-534, with the two lists it appends to. *)
Fixpoint run_driz_loop (trlfile : string) (pipeline_pars : gmap string pval)
    (drizlog : string) (inlist : list string)
    (drz_products : list string) (focus_dicts : list focus_dict)
  : M (list string * list focus_dict) :=
  match inlist with
  | [] => ret (drz_products, focus_dicts)
  | infile :: rest =>
      let* r := call (process_input infile) in
      let calfiles := r.1 in
      let drz_product := r.2 in
      let drz_products := drz_products ++ [drz_product] in
      let _trlmsg :=
        _timestamp "astrodrizzle started " +:+ __trlmarker__
        +:+ _getTime +:+ ": Processing " +:+ infile
        +:+ " with astrodrizzle Version " +:+ pyver +:+ nl in
      _updateTrlFile trlfile _trlmsg ;;;
      let _pyd_err := str_replace ".tra" "_pydriz.stderr" trlfile in
      try_except
        (call (AstroDrizzle infile pipeline_pars) ;;; call (end_logging drizlog))
        (run_driz_except trlfile drizlog _pyd_err infile) ;;;
      match calfiles with
      | [] => raise IndexError
      | calfile0 :: _ =>
          let cal_suffix := if str_endswith "_flt.fits" calfile0 then "_flt" else "_flc" in
          let single_files := map (str_replace cal_suffix "_single_sci") calfiles in
          let* fd := call (build_focus_dict single_files drz_product) in
          let focus_dicts := focus_dicts ++ [fd] in
          let json_name := str_replace ".fits" "_focus.json" drz_product in
          write_file json_name (json_dump focus_dicts) ;;;
          let drizlog_copy := str_replace ".log" "_copy.log" drizlog in
          shutil_copy_rel drizlog drizlog_copy ;;;
          _appendTrlFile trlfile drizlog_copy ;;;
          let* there := path_exists drizlog in
          (if there then remove drizlog else ret ()) ;;;
          run_driz_loop trlfile pipeline_pars drizlog rest drz_products focus_dicts
      end
  end.

(** [run_driz(inlist, trlfile, **pipeline_pars)] returns
    [(drz_products, focus_dicts)]. *)
Definition run_driz (inlist : list string) (trlfile : string)
    (pipeline_pars : gmap string pval) : M (list string * list focus_dict) :=
  let runfile := str_replace ".tra" "_pydriz" trlfile in
  let pipeline_pars := <["runfile" := PStr runfile]> pipeline_pars in
  let drizlog := runfile +:+ ".log" in
  run_driz_loop trlfile pipeline_pars drizlog inlist [] [].

(** *** [verify_alignment], lines 538-693 *)

(** Lines 547-559: the parameters that switch cosmic-ray identification off. *)
Definition no_crs_pars (pipeline_pars : gmap string pval) : gmap string pval :=
  <["driz_cr" := PBool false]>
  (<["blot" := PBool false]>
  (<["median" := PBool false]>
  (<["driz_sep_fillval" := PFloat 0]>
  (<["driz_sep_bits" := PStr "~6400"]>
  (<["driz_separate" := PBool true]>
  (<["skysub" := PBool false]>
  (<["static" := PBool false]>
  (<["resetbits" := PInt 0]>
  (<["build" := PBool true]>
  (<["mdriztab" := PBool false]> pipeline_pars)))))))))).

(** Lines 561-568: the temporary directory and the copies of the inputs. *)
Definition stage_files (inlist calfiles calfiles_flc : list string) (tmpdir : string)
  : M unit :=
  let* there := path_exists tmpdir in
  (if negb there then makedirs tmpdir else ret ()) ;;;
  for_each (λ f, shutil_copy_rel f tmpdir) (inlist ++ calfiles) ;;;
  if bool_decide (calfiles_flc ≠ [])
  then for_each (λ f, shutil_copy_rel f tmpdir) calfiles_flc
  else ret ().

(** How a part of the body of the [try] ends: it goes on, or it executes
    [return None]. *)
Inductive flow : Type := GoOn | ReturnNone.

(** The loop of lines 598-605 over the rows of the alignment table.  It
    extends the local [trlmsg]; at the first row whose status is not 0 it
    extends it once more and executes [return None]. *)
Inductive scanned : Type :=
| AllAligned (trlmsg : string)
| NotAligned (trlmsg : string).

Fixpoint scan_align_table (rows : list align_row) (trlmsg : string) : scanned :=
  match rows with
  | [] => AllAligned trlmsg
  | row :: rest =>
      if status row =? 0
      then scan_align_table rest
             (trlmsg +:+ "Successfully aligned " +:+ imageName row +:+ " to "
              +:+ catalog row +:+ " astrometric frame" +:+ nl)
      else NotAligned
             (trlmsg +:+ "Could not align " +:+ imageName row
              +:+ " to absolute astrometric frame" +:+ nl)
  end.

(** The loop of lines 625-635 over [zip(align_update_files, alignfiles)]. *)
Fixpoint apply_headerlets (align_table : list align_row)
    (pairs : list (string * string)) (_trlmsg : string) : M string :=
  match pairs with
  | [] => ret _trlmsg
  | (fltfile, flcfile) :: rest =>
      match filter (λ row, imageName row = flcfile) align_table with
      | [] => raise IndexError
      | row :: _ =>
          let headerletFile := headerletFile row in
          if bool_decide (headerletFile ≠ "None") then
            call (apply_headerlet_as_primary fltfile headerletFile) ;;;
            apply_headerlets align_table rest
              (_trlmsg +:+ "Applying headerlet " +:+ headerletFile
               +:+ " as Primary WCS to " +:+ fltfile +:+ nl)
          else
            apply_headerlets align_table rest
              (_trlmsg +:+ "No absolute astrometric headerlet applied to "
               +:+ fltfile +:+ nl)
      end
  end.

(** Lines 589-639: the branch [alignment_mode == 'aposteriori']. *)
Definition align_aposteriori (trlfile : string)
    (alignfiles align_update_files : list string) : M flow :=
  let trlmsg := _timestamp "Align_to_GAIA started " in
  _updateTrlFile trlfile trlmsg ;;;
  let alignlog := str_replace ".tra" "_align.log" trlfile in
  let alignlog_copy := str_replace "_align" "_align_copy" alignlog in
  let* aligned :=
    try_except
      (let* align_table := call (perform_align alignfiles alignlog) in
       match scan_align_table align_table trlmsg with
       | AllAligned trlmsg => ret (Some (align_table, trlmsg))
       | NotAligned _ => ret None
       end)
      (λ _,
       let _trlmsg := "EXCEPTION encountered in alignimages..." +:+ nl
                      +:+ "   No correction to absolute astrometric frame applied!" +:+ nl in
       _updateTrlFile trlfile _trlmsg ;;;
       ret None) in
  match aligned with
  | None => ret ReturnNone
  | Some (align_table, trlmsg) =>
      shutil_copy_rel alignlog alignlog_copy ;;;
      _appendTrlFile trlfile alignlog_copy ;;;
      _updateTrlFile trlfile trlmsg ;;;
      let* _trlmsg :=
        if bool_decide (align_update_files ≠ []) && bool_decide (align_table ≠ [])
        then apply_headerlets align_table (zip align_update_files alignfiles) ""
        else ret "" in
      _updateTrlFile trlfile (_trlmsg +:+ _timestamp "Align_to_GAIA completed ") ;;;
      ret GoOn
  end.

(** Lines 583-639: the alignment that the mode asks for. *)
Definition wcs_correction (alignment_mode : option string) (trlfile : string)
    (calfiles calfiles_flc alignfiles align_update_files : list string) : M flow :=
  if bool_decide (alignment_mode = Some "apriori") then
    call (updatewcs calfiles true) ;;;
    (if bool_decide (calfiles_flc ≠ []) then call (updatewcs calfiles_flc true) else ret ()) ;;;
    ret GoOn
  else if bool_decide (alignment_mode = Some "aposteriori") then
    align_aposteriori trlfile alignfiles align_update_files
  else ret GoOn.

(** Line 648: [focus_dicts[-1] if 'drc' in focus_dicts[-1]['prodname'] else focus_dicts[0]]. *)
Definition select_focus (focus_dicts : list focus_dict) : result focus_dict :=
  match List.last (Some <$> focus_dicts) None, focus_dicts with
  | Some fd_last, fd0 :: _ => Ret (if substr_in "drc" (prodname fd_last) then fd_last else fd0)
  | _, _ => Raise IndexError
  end.

(** Whether a mode is given: [if alignment_mode:]. *)
Definition mode_given (alignment_mode : option string) : bool :=
  match alignment_mode with
  | Some s => negb (bool_decide (s = ""))
  | None => false
  end.

(** Lines 657-675: the similarity index of the product and its effect on
    [alignment_verified] and on the message.  The reference is the product
    of the same name in the parent of the working directory. *)
Definition check_similarity (force_alignment : bool) (align_focus : focus_dict)
    (alignment_verified : bool) (_trlmsg : string) : M (bool * string) :=
  let prodname := prodname align_focus in
  let* alignprod := read_file prodname in
  let* d := getcwd in
  let* ref := lookup_file (removelast d) prodname in
  match ref with
  | None => raise (IOError prodname)
  | Some align_ref =>
      let* sim_indx := lift (compute_similarity alignprod align_ref) in
      let align_sim_fail := negb (Qle_bool sim_indx 1) in
      if align_sim_fail then
        let alignment_verified := false in
        let _trlmsg := _trlmsg +:+ "Astrometry alignment FAILED with a similarity index of "
                        +:+ format_float sim_indx +:+ "!" +:+ nl in
        if force_alignment
        then ret (alignment_verified,
                  _trlmsg +:+ "  WARNING: " +:+ nl
                  +:+ "KEEPING potentially compromised astrometry solution!" +:+ nl)
        else ret (alignment_verified,
                  _trlmsg +:+ "  Reverting to pipeline-default WCS-based alignment." +:+ nl)
      else
        ret (alignment_verified,
             _trlmsg +:+ "Alignment appeared to succeed based on similarity index of "
             +:+ format_float sim_indx +:+ nl)
  end.

(** Lines 678-684: the copies into the parent directory. *)
Definition save_products (parent_dir : list string)
    (calfiles calfiles_flc drz_products : list string) : M unit :=
  for_each (λ f, shutil_copy f parent_dir) calfiles ;;;
  (if bool_decide (calfiles_flc ≠ [])
   then for_each (λ f, shutil_copy f parent_dir) calfiles_flc
   else ret ()) ;;;
  for_each (λ f, shutil_copy f parent_dir) drz_products.

(** Lines 573-687: the body of the [try] once the working directory is the
    temporary one.  [None] stands for [return None]; [Some focus_dicts] is
    the value that line 693 returns. *)
Definition in_tmpdir (parent_dir : list string)
    (inlist calfiles calfiles_flc : list string) (trlfile : string)
    (alignment_mode : option string) (force_alignment : bool)
    (pipeline_pars : gmap string pval) : M (option (list focus_dict)) :=
  let* flc_there :=
    match calfiles_flc with
    | [] => ret false
    | flc0 :: _ => path_exists flc0
    end in
  let calfiles_flc := if flc_there then calfiles_flc else [] in
  let alignfiles := if bool_decide (calfiles_flc ≠ []) then calfiles_flc else calfiles in
  let align_update_files := if bool_decide (calfiles_flc ≠ []) then calfiles else [] in
  let* fl := wcs_correction alignment_mode trlfile calfiles calfiles_flc
               alignfiles align_update_files in
  match fl with
  | ReturnNone => ret None
  | GoOn =>
      let* driz := run_driz inlist trlfile pipeline_pars in
      let drz_products := driz.1 in
      let focus_dicts := driz.2 in
      let _trlmsg := _timestamp "Verification of alignment started " in
      let* align_focus := lift (select_focus focus_dicts) in
      let* alignment_verified := lift (evaluate_focus align_focus) in
      let _trlmsg :=
        if alignment_verified
        then _trlmsg +:+ "Focus verification indicated that alignment SUCCEEDED." +:+ nl
        else _trlmsg +:+ "Focus verification indicated that alignment FAILED." +:+ nl in
      let* scored :=
        if mode_given alignment_mode
        then check_similarity force_alignment align_focus alignment_verified _trlmsg
        else ret (alignment_verified, _trlmsg) in
      let alignment_verified := scored.1 in
      let _trlmsg := scored.2 in
      let* _trlmsg :=
        if alignment_verified then
          save_products parent_dir calfiles calfiles_flc drz_products ;;;
          ret (_trlmsg +:+ "Saving products with new alignment." +:+ nl)
        else ret _trlmsg in
      _updateTrlFile trlfile (_trlmsg +:+ _timestamp "Verification of alignment completed ") ;;;
      ret (Some focus_dicts)
  end.

(** The [finally] clause, lines 689-691: [os.chdir(parent_dir)].  The local
    [parent_dir] is unbound until line 570 has run.  When the clause raises,
    its exception replaces the outcome of the [try]; otherwise that outcome
    stands. *)
Definition finally_chdir {A : Type} (parent_dir : option (list string))
    (outcome : result A) : M A :=
  match parent_dir with
  | None => raise (UnboundLocalError "parent_dir")
  | Some d => chdir d ;;; lift outcome
  end.

(** [verify_alignment(inlist, calfiles, calfiles_flc, trlfile, find_crs,
    tmpdir, alignment_mode, force_alignment, **pipeline_pars)]. *)
Definition verify_alignment (inlist calfiles calfiles_flc : list string) (trlfile : string)
    (find_crs : bool) (tmpdir : string) (alignment_mode : option string)
    (force_alignment : bool) (pipeline_pars : gmap string pval)
  : M (option (list focus_dict)) :=
  λ w,
  let pipeline_pars := if negb find_crs then no_crs_pars pipeline_pars else pipeline_pars in
  match stage_files inlist calfiles calfiles_flc tmpdir w with
  | (Raise e, w1) => finally_chdir None (Raise e) w1
  | (Ret _, w1) =>
      let parent_dir := cwd w1 in
      let '(outcome, w2) :=
        (chdir_rel tmpdir ;;;
         in_tmpdir parent_dir inlist calfiles calfiles_flc trlfile
           alignment_mode force_alignment pipeline_pars) w1 in
      finally_chdir (Some parent_dir) outcome w2
  end.

(** *** [process], lines 336-381

    The part of [process] that runs the attempts, for the lists and names
    that lines 123-334 have computed; its value is the local [align_dicts]
    when line 381 has run. *)

(** Lines 99-105. *)
Definition pipeline_pars0 : gmap string pval :=
  <["resetbits" := PInt 4096]>
  (<["clean" := PBool false]>
  (<["preserve" := PBool false]>
  (<["output" := PStr ""]>
  (<["stepsize" := PInt 10]>
  (<["in_memory" := PBool false]>
  (<["mdriztab" := PBool true]> ∅)))))).

(** Python's truth value of the result of [verify_alignment]. *)
Definition truthy (r : option (list focus_dict)) : bool :=
  match r with
  | Some (_ :: _) => true
  | _ => false
  end.

Definition process (_inlist _calfiles _calfiles_flc : list string) (_trlfile : string)
    (num_cores : pval) (align_to_gaia force_alignment : bool)
  : M (option (list focus_dict)) :=
  call (updatewcs _calfiles false) ;;;
  (if bool_decide (_calfiles_flc ≠ []) then call (updatewcs _calfiles_flc false) else ret ()) ;;;
  let pipeline_pars := <["num_cores" := num_cores]> pipeline_pars0 in
  let* align_dicts :=
    verify_alignment _inlist _calfiles _calfiles_flc _trlfile
      true "pipeline-default" None force_alignment pipeline_pars in
  let* align_apriori :=
    verify_alignment _inlist _calfiles _calfiles_flc _trlfile
      false "apriori" (Some "apriori") force_alignment pipeline_pars in
  let align_dicts := if truthy align_apriori then align_apriori else align_dicts in
  if align_to_gaia then
    let* align_aposteriori :=
      verify_alignment _inlist _calfiles _calfiles_flc _trlfile
        false "aposteriori" (Some "aposteriori") force_alignment pipeline_pars in
    ret (if truthy align_aposteriori then align_aposteriori else align_dicts)
  else ret align_dicts.

End WithCollaborators.

(** *** What a computation leaves in place *)

(** A computation stays in place when it changes neither the working
    directory nor the set of directories. *)
Definition stays_put {A : Type} (m : M A) : Prop :=
  ∀ w, cwd (m w).2 = cwd w ∧ dirs (m w).2 = dirs w.

(** It may create directories when it keeps the working directory and
    removes no directory. *)
Definition may_mkdir {A : Type} (m : M A) : Prop :=
  ∀ w, cwd (m w).2 = cwd w ∧ dirs w ⊆ dirs (m w).2.

(** The files of the directory [d]. *)
Definition dir_files (d : list string) (w : world) : gmap (list string * string) string :=
  filter (λ kv, kv.1.1 = d) (files w).

(** *** Inputs for the examples *)

(** Collaborators for the examples.  The WCS updater marks the files it
    touches; the drizzle engine writes a log and a product that names the
    directory it was made in; the focus verdict fails in the directories
    [focus_fails_in]; the similarity index is [sim]; the catalog aligner
    writes its log and returns [table]. *)
Definition sample_collaborators (focus_fails_in : list string) (sim : Q)
    (table : result (list align_row)) : Collaborators := {|
  updatewcs := λ fs use_db d m,
    (Ret (),
     foldr (λ f m, alter (λ t, t +:+ (if use_db then "+apriori" else "+wcs")) (d, f) m) m fs);
  perform_align := λ fs runfile d m,
    (table, <[(d, runfile) := "perform_align log" +:+ nl]> m);
  apply_headerlet_as_primary := λ flt hlet d m,
    (Ret (), alter (λ t, t +:+ "+" +:+ hlet) (d, flt) m);
  process_input := λ infile d m,
    (Ret (["j8c0d1bwq_flt.fits"], "j8c0d1_drz.fits"), m);
  AstroDrizzle := λ infile pars d m,
    let log := match pars !! "runfile" with
               | Some (PStr r) => r +:+ ".log"
               | _ => "astrodrizzle.log"
               end in
    (Ret (), <[(d, log) := "AstroDrizzle log" +:+ nl]>
               (<[(d, "j8c0d1_drz.fits") := "drizzled in " +:+ List.last d ""]> m));
  end_logging := λ log d m, (Ret (), m);
  build_focus_dict := λ singles prod d m, (Ret (FocusDict prod (List.last d "")), m);
  evaluate_focus := λ fd, Ret (negb (bool_decide (focus_info fd ∈ focus_fails_in)));
  compute_similarity := λ a b, Ret sim;
  json_dump := λ fds, String.concat "," (prodname <$> fds);
  strftime := λ fmt, "2019268";
  pyver := "2.2.6";
  format_float := λ q, "<sim>"
|}.

(** The focus verdict fails for the a-priori attempt. *)
Definition collab_focus_fails : Collaborators := sample_collaborators ["apriori"] 0 (Ret []).

(** The similarity index is 2. *)
Definition collab_sim_2 : Collaborators := sample_collaborators [] 2 (Ret []).

(** The catalog aligner returns one row, with status 1. *)
Definition collab_row_fails : Collaborators :=
  sample_collaborators [] 0 (Ret [AlignRow 1 "j8c0d1bwq_flt.fits" "GAIADR2" "None"]).

(** The catalog aligner raises. *)
Definition collab_aligner_raises : Collaborators :=
  sample_collaborators [] 0 (Raise (ValueError "no sources found")).

(** An association of one exposure in the directory [/data]. *)
Definition inlist0 : list string := ["j8c0d1_asn.fits"].
Definition calfiles0 : list string := ["j8c0d1bwq_flt.fits"].

Definition disk0 : world :=
  World ["data"] {[ ["data"] ]} ∅
    (<[(["data"], "j8c0d1_asn.fits") := "asn"]>
     (<[(["data"], "j8c0d1bwq_flt.fits") := "flt"]> ∅)).

(** The same, in a directory that refuses writes. *)
Definition disk_readonly : world :=
  World ["data"] {[ ["data"] ]} {[ ["data"] ]}
    (<[(["data"], "j8c0d1_asn.fits") := "asn"]>
     (<[(["data"], "j8c0d1bwq_flt.fits") := "flt"]> ∅)).

(** The state after the pipeline-default attempt on [disk0]. *)
Definition after_default (C : Collaborators) : world :=
  (@verify_alignment C inlist0 calfiles0 [] "j8c0d1.tra" true "pipeline-default" None false
     pipeline_pars0 disk0).2.

End RunAlignDriz.

(** * Properties of lib/buildmask.py *)

Module BuildMaskSpec.
Import BuildMask.

Example buildMask_none_ex :
  buildMask (NDArray UInt16 [[0; 5]; [4096; 7]]) None = NDArray Float64 [[1; 1]; [1; 1]].
Proof. reflexivity. Qed.

Example buildMask_bits_ex :
  buildMask (NDArray UInt16 [[0; 5]; [4096; 7]; [4; 1]]) (Some 5)
  = NDArray UInt8 [[1; 1]; [0; 0]; [1; 1]].
Proof. reflexivity. Qed.

Lemma get2_map (f : Z → Z) (a : list (list Z)) (r c : nat) :
  get2 (map (map f) a) r c = f <$> get2 a r c.
Proof.
  unfold get2. change (map (map f) a) with (map f <$> a).
  rewrite list_lookup_fmap. destruct (a !! r) as [row|]; simpl; [|done].
  change (map f row) with (f <$> row). by rewrite list_lookup_fmap.
Qed.

Lemma shape_map (f : Z → Z) (a : list (list Z)) :
  shape (map (map f) a) = shape a.
Proof.
  unfold shape. rewrite map_map. apply map_ext. intros row. apply length_map.
Qed.

(** The value of a mask pixel for the DQ value [d] and the selector [bit]. *)
Lemma buildMask_pixel (dq : ndarray) (bit : Z) (r c : nat) :
  get2 (arr_data (buildMask dq (Some bit))) r c
  = (λ d, if Z.lor d bit >? bit then 0 else 1) <$> get2 (arr_data dq) r c.
Proof.
  simpl. rewrite !get2_map. by destruct (get2 (arr_data dq) r c).
Qed.

(** C5.  Without a bit selector [buildMask] gives an array of the shape of
    the DQ array whose pixels are all 1; with the selector [bit] the mask
    has that shape too and its pixel at [p] is 0 if and only if
    [(dq[p] | bit) > bit]. *)
Theorem buildMask_spec (dq : ndarray) :
  (shape (arr_data (buildMask dq None)) = shape (arr_data dq)
   ∧ ∀ r c d, get2 (arr_data dq) r c = Some d →
       get2 (arr_data (buildMask dq None)) r c = Some 1)
  ∧ ∀ bit : Z,
      shape (arr_data (buildMask dq (Some bit))) = shape (arr_data dq)
      ∧ ∀ r c d, get2 (arr_data dq) r c = Some d →
          ∃ m, get2 (arr_data (buildMask dq (Some bit))) r c = Some m
               ∧ (m = 0 ↔ Z.lor d bit > bit).
Proof.
  split.
  - split; [apply shape_map|]. intros r c d Hd. simpl.
    rewrite get2_map, Hd. simpl. f_equal. lia.
  - intros bit. split; [simpl; by rewrite !shape_map|].
    intros r c d Hd. rewrite buildMask_pixel, Hd. simpl.
    eexists; split; [reflexivity|].
    destruct (Z.gtb_spec (Z.lor d bit) bit); split; intros; lia.
Qed.

(** [d | bit] is [bit] plus the bits of [d] that [bit] lacks. *)
Lemma lor_ldiff (d bit : Z) : Z.lor d bit = bit + Z.ldiff d bit.
Proof.
  pose proof (Z.add_lor_land d bit) as Hadd.
  assert (d = Z.ldiff d bit + Z.land d bit) as Hd.
  { rewrite <- (Z.lor_ldiff_and d bit) at 1.
    rewrite <- Z.lxor_lor, <- Z.add_nocarry_lxor; [done| |].
    - rewrite (Z.land_comm d bit), Z.land_assoc, Z.land_ldiff. apply Z.land_0_l.
    - rewrite (Z.land_comm d bit), Z.land_assoc, Z.land_ldiff. apply Z.land_0_l. }
  lia.
Qed.

(** For a DQ value that is not negative, the comparison of [buildMask]
    holds exactly when some bit of the value lies outside the selector. *)
Lemma lor_gt_iff_unselected_bit (d bit : Z) :
  0 ≤ d →
  Z.lor d bit > bit ↔ ∃ n, 0 ≤ n ∧ Z.testbit d n = true ∧ Z.testbit bit n = false.
Proof.
  intros Hd. rewrite lor_ldiff.
  assert (0 ≤ Z.ldiff d bit) as Hnn by (apply Z.ldiff_nonneg; by left).
  split.
  - intros Hgt. exists (Z.log2 (Z.ldiff d bit)).
    assert (Z.testbit (Z.ldiff d bit) (Z.log2 (Z.ldiff d bit)) = true) as Hb
      by (apply Z.bit_log2; lia).
    rewrite Z.ldiff_spec in Hb. apply andb_true_iff in Hb as [Hb1 Hb2].
    split; [apply Z.log2_nonneg|]. split; [done|].
    by destruct (Z.testbit bit _).
  - intros (n & Hn & H1 & H2).
    assert (Z.ldiff d bit ≠ 0); [|lia].
    intros H0. pose proof (Z.ldiff_spec d bit n) as Hs.
    rewrite H0, Z.bits_0, H1, H2 in Hs. done.
Qed.

(** C6, counterexample.  The DQ value 1 shares its bit with the selector 1,
    and the pixel of the mask is 1: it is not true that a pixel is 0 exactly
    when its DQ value shares a set bit with the selector. *)
Lemma buildMask_shared_bit_counterexample :
  ¬ (∀ (dq : ndarray) (bit : Z) (r c : nat) (d : Z),
       get2 (arr_data dq) r c = Some d →
       (get2 (arr_data (buildMask dq (Some bit))) r c = Some 0 ↔ Z.land d bit ≠ 0)).
Proof.
  intros Hclaim.
  destruct (Hclaim (NDArray UInt16 [[1]]) 1 0%nat 0%nat 1 eq_refl) as [_ Hzero].
  discriminate Hzero. done.
Qed.

(** C6, amended.  For a DQ array without negative values and a selector
    [bit], the mask has the shape of the DQ array, its pixels are 0 or 1,
    and a pixel is 0 exactly when the DQ value has a set bit that is not
    set in the selector. *)
Theorem buildMask_zero_iff_unselected_bit (dq : ndarray) (bit : Z) :
  Forall (Forall (Z.le 0)) (arr_data dq) →
  shape (arr_data (buildMask dq (Some bit))) = shape (arr_data dq)
  ∧ binary (arr_data (buildMask dq (Some bit)))
  ∧ ∀ r c d, get2 (arr_data dq) r c = Some d →
      (get2 (arr_data (buildMask dq (Some bit))) r c = Some 0
       ↔ ∃ n, 0 ≤ n ∧ Z.testbit d n = true ∧ Z.testbit bit n = false).
Proof.
  intros Hnn. split; [simpl; by rewrite !shape_map|]. split.
  - intros r c m. rewrite buildMask_pixel.
    destruct (get2 (arr_data dq) r c) as [d|]; simpl; [|done].
    intros [= <-]. destruct (Z.lor d bit >? bit); auto.
  - intros r c d Hd. rewrite buildMask_pixel, Hd. simpl.
    assert (0 ≤ d) as Hd0.
    { unfold get2 in Hd. destruct (arr_data dq !! r) as [row|] eqn:Hrow; [|done].
      simpl in Hd. rewrite Forall_lookup in Hnn. specialize (Hnn _ _ Hrow).
      rewrite Forall_lookup in Hnn. by apply (Hnn c). }
    rewrite <- (lor_gt_iff_unselected_bit d bit Hd0).
    destruct (Z.gtb_spec (Z.lor d bit) bit); split; intros; try lia; try done.
Qed.

Lemma buildMask_zero_iff_unselected_bit_witness :
  let dq := NDArray UInt16 [[0; 5]; [4096; 7]; [4; 1]] in
  shape (arr_data (buildMask dq (Some 5))) = shape (arr_data dq)
  ∧ binary (arr_data (buildMask dq (Some 5)))
  ∧ ∀ r c d, get2 (arr_data dq) r c = Some d →
      (get2 (arr_data (buildMask dq (Some 5))) r c = Some 0
       ↔ ∃ n, 0 ≤ n ∧ Z.testbit d n = true ∧ Z.testbit 5 n = false).
Proof.
  intros dq. apply (buildMask_zero_iff_unselected_bit dq 5).
  repeat constructor; lia.
Defined.

Lemma every_other_lookup {A} (l : list A) :
  ∀ i, every_other true l !! i = l !! (2 * i)%nat
       ∧ every_other false l !! i = l !! (2 * i + 1)%nat.
Proof.
  induction l as [|x t IH]; intros i; simpl; [done|].
  split.
  - destruct i as [|i]; simpl; [done|].
    replace (i + S (i + 0))%nat with (2 * i + 1)%nat by lia. apply IH.
  - replace (i + (i + 0) + 1)%nat with (S (2 * i)) by lia. simpl. apply IH.
Qed.

Lemma every_other_length {A} (l : list A) :
  length (every_other true l) = Nat.div2 (S (length l))
  ∧ length (every_other false l) = Nat.div2 (length l).
Proof.
  induction l as [|x t [IH1 IH2]]; simpl; [done|].
  split; [by rewrite IH2 | done].
Qed.

Lemma get2_slice2 (a : list (list Z)) (i j : nat) :
  get2 (slice2 0 0 a) i j = get2 a (2 * i) (2 * j).
Proof.
  unfold get2, slice2. simpl Nat.eqb.
  change (map (every_other true) (every_other true a))
    with (every_other true <$> every_other true a).
  rewrite list_lookup_fmap, (proj1 (every_other_lookup a i)).
  destruct (a !! (2 * i)%nat) as [row|]; simpl; [|done].
  apply every_other_lookup.
Qed.

Lemma get2_set2_ne (a : list (list Z)) (r c r' c' : nat) (v : Z) :
  (r, c) ≠ (r', c') → get2 (set2 a r c v) r' c' = get2 a r' c'.
Proof.
  intros Hne. unfold get2, set2.
  destruct (decide (r = r')) as [->|Hr].
  - rewrite list_lookup_alter_eq. destruct (a !! r') as [row|]; simpl; [|done].
    apply list_lookup_insert_ne. congruence.
  - by rewrite list_lookup_alter_ne.
Qed.

Lemma get2_set2_eq (a : list (list Z)) (r c : nat) (v : Z) :
  is_Some (get2 a r c) → get2 (set2 a r c v) r c = Some v.
Proof.
  unfold get2, set2. intros [x Hx]. rewrite list_lookup_alter_eq.
  destruct (a !! r) as [row|]; simpl in *; [|done].
  apply list_lookup_insert_eq. by eapply lookup_lt_Some.
Qed.

Lemma shape_set2 (a : list (list Z)) (r c : nat) (v : Z) :
  shape (set2 a r c v) = shape a.
Proof.
  unfold shape, set2. apply list_eq. intros i.
  change (map length ?l) with (length <$> l). rewrite !list_lookup_fmap.
  destruct (decide (r = i)) as [->|Hne].
  - rewrite list_lookup_alter_eq. destruct (a !! i); simpl; [|done].
    by rewrite length_insert.
  - by rewrite list_lookup_alter_ne.
Qed.

Lemma get2_imul_cell_hit r0 c0 buf ij :
  get2 (imul_cell r0 c0 buf ij) (2 * ij.1) (2 * ij.2) = cell_product r0 c0 buf ij.
Proof.
  unfold imul_cell, cell_product.
  destruct (get2 buf (2 * ij.1) (2 * ij.2)) as [x|] eqn:Hx; [|by rewrite Hx].
  destruct (get2 buf (2 * ij.1 + r0) (2 * ij.2 + c0)) as [y|]; [|done].
  apply get2_set2_eq. by rewrite Hx.
Qed.

Lemma get2_imul_cell_other r0 c0 buf ij r c :
  (r, c) ≠ ((2 * ij.1)%nat, (2 * ij.2)%nat) →
  get2 (imul_cell r0 c0 buf ij) r c = get2 buf r c.
Proof.
  intros Hne. unfold imul_cell.
  destruct (get2 buf (2 * ij.1) (2 * ij.2)); [|done].
  destruct (get2 buf (2 * ij.1 + r0) (2 * ij.2 + c0)); [|done].
  apply get2_set2_ne. congruence.
Qed.

Lemma shape_imul_cell r0 c0 buf ij : shape (imul_cell r0 c0 buf ij) = shape buf.
Proof.
  unfold imul_cell.
  destruct (get2 buf (2 * ij.1) (2 * ij.2)); [|done].
  destruct (get2 buf (2 * ij.1 + r0) (2 * ij.2 + c0)); [|done].
  apply shape_set2.
Qed.

Lemma shape_foldl_imul r0 c0 l buf :
  shape (foldl (imul_cell r0 c0) buf l) = shape buf.
Proof.
  revert buf. induction l as [|ij l IH]; intros buf; simpl; [done|].
  by rewrite IH, shape_imul_cell.
Qed.

(** The cells that the loop does not visit keep their value. *)
Lemma get2_foldl_imul_other r0 c0 l buf r c :
  (∀ ij, ij ∈ l → (r, c) ≠ ((2 * ij.1)%nat, (2 * ij.2)%nat)) →
  get2 (foldl (imul_cell r0 c0) buf l) r c = get2 buf r c.
Proof.
  revert buf. induction l as [|ij l IH]; intros buf Hl; simpl; [done|].
  rewrite IH by (intros; apply Hl; by right).
  apply get2_imul_cell_other, Hl. by left.
Qed.

(** A visited cell holds the product of the values that the two operands
    had before the loop: the right operand is never a cell the loop writes. *)
Lemma get2_foldl_imul_hit r0 c0 l buf ij :
  (0 < r0 + c0)%nat → (r0 ≤ 1)%nat → (c0 ≤ 1)%nat →
  NoDup l → ij ∈ l →
  get2 (foldl (imul_cell r0 c0) buf l) (2 * ij.1) (2 * ij.2) = cell_product r0 c0 buf ij.
Proof.
  intros Hpos Hr0 Hc0. revert buf.
  induction l as [|a l IH]; intros buf Hnd Hin; simpl; [by apply elem_of_nil in Hin|].
  apply NoDup_cons in Hnd as [Ha Hnd].
  apply elem_of_cons in Hin as [->|Hin].
  - rewrite get2_foldl_imul_other; [apply get2_imul_cell_hit|].
    intros ij' Hij' [= H1 H2]. apply Ha.
    destruct a, ij'; simpl in *. replace n with n1 by lia. replace n0 with n2 by lia. done.
  - rewrite IH by done. unfold cell_product.
    assert (a ≠ ij) as Hne by (intros ->; done).
    rewrite !get2_imul_cell_other; [done| |].
    + intros [= H1 H2]. lia.
    + intros [= H1 H2]. apply Hne. destruct a, ij; simpl in *. f_equal; lia.
Qed.

Lemma every_other_map {A B} (f : A → B) (l : list A) :
  ∀ b, every_other b (map f l) = map f (every_other b l).
Proof.
  induction l as [|x t IH]; intros b; simpl; [done|].
  destruct b; simpl; by rewrite IH.
Qed.

Lemma every_other_replicate {A} (x : A) (h : nat) :
  ∀ b, every_other b (replicate (2 * h) x) = replicate h x.
Proof.
  induction h as [|h IH]; intros b; [done|].
  replace (2 * S h)%nat with (S (S (2 * h))) by lia.
  destruct b; simpl; f_equal; apply IH.
Qed.

Lemma shape_slice2 (a : list (list Z)) (h w r0 c0 : nat) :
  shape a = replicate (2 * h) (2 * w)%nat →
  shape (slice2 r0 c0 a) = replicate h w.
Proof.
  intros Ha. unfold shape, slice2. rewrite map_map.
  transitivity (map (λ n, w) (every_other (r0 =? 0)%nat (shape a))).
  - unfold shape. rewrite every_other_map, map_map.
    apply map_ext_in. intros row Hrow.
    assert (length row = (2 * w)%nat) as Hlen.
    { assert (row ∈ a) as Hin.
      { apply list_elem_of_In in Hrow. apply list_elem_of_lookup in Hrow as [i Hi].
        destruct (every_other_lookup a i) as [H1 H2].
        destruct (r0 =? 0)%nat; [rewrite H1 in Hi|rewrite H2 in Hi];
          by eapply list_elem_of_lookup_2. }
      apply list_elem_of_lookup in Hin as [i Hi].
      assert (shape a !! i = Some (length row)) as Hs
        by (unfold shape; change (map length a) with (length <$> a);
            by rewrite list_lookup_fmap, Hi).
      rewrite Ha in Hs. by apply lookup_replicate in Hs as [-> _]. }
    destruct (every_other_length row) as [H1 H2].
    destruct (c0 =? 0)%nat; [rewrite H1|rewrite H2]; rewrite Hlen.
    + replace (S (2 * w)) with (1 + 2 * w)%nat by lia.
      rewrite Nat.div2_div. rewrite Nat.add_comm, Nat.mul_comm, Nat.div_add_l by lia.
      simpl. lia.
    + rewrite Nat.div2_div, Nat.mul_comm, Nat.div_mul by lia. done.
  - rewrite Ha, every_other_replicate.
    change (map ?f ?l) with (f <$> l). by rewrite fmap_replicate.
Qed.

Lemma get2_in_shape (a : list (list Z)) (h w r c : nat) :
  shape a = replicate h w → (r < h)%nat → (c < w)%nat → is_Some (get2 a r c).
Proof.
  intros Ha Hr Hc. unfold get2.
  assert (length a = h) as Hlen.
  { rewrite <- (length_replicate h w), <- Ha. unfold shape. by rewrite length_map. }
  destruct (lookup_lt_is_Some_2 a r) as [row Hrow]; [lia|].
  rewrite Hrow. simpl. apply lookup_lt_is_Some_2.
  assert (shape a !! r = Some (length row)) as Hs
    by (unfold shape; change (map length a) with (length <$> a);
        by rewrite list_lookup_fmap, Hrow).
  rewrite Ha in Hs. apply lookup_replicate in Hs as [-> _]. done.
Qed.

Lemma elem_of_cells (h w : nat) (ij : nat * nat) :
  ij ∈ cells h w ↔ (ij.1 < h)%nat ∧ (ij.2 < w)%nat.
Proof.
  unfold cells. rewrite list_elem_of_bind. split.
  - intros (i & Hj & Hi). apply list_elem_of_fmap in Hj as (j & -> & Hj).
    apply elem_of_seq in Hi, Hj. simpl. lia.
  - intros [Hi Hj]. exists ij.1. split.
    + apply list_elem_of_fmap. exists ij.2. split; [by destruct ij|].
      apply elem_of_seq. lia.
    + apply elem_of_seq. lia.
Qed.

Lemma NoDup_cells (h w : nat) : NoDup (cells h w).
Proof.
  unfold cells. apply NoDup_bind.
  - intros i1 i2 ij _ _ H1 H2.
    apply list_elem_of_fmap in H1 as (j1 & -> & _).
    apply list_elem_of_fmap in H2 as (j2 & [= -> _] & _). done.
  - intros i _. apply NoDup_fmap_2; [|apply NoDup_seq].
    intros j1 j2 [= ->]. done.
  - apply NoDup_seq.
Qed.

(** One in-place product on an array of even dimensions. *)
Lemma imul_view_spec (r0 c0 h w : nat) (buf : list (list Z)) :
  shape buf = replicate (2 * h) (2 * w)%nat →
  (0 < r0 + c0)%nat → (r0 ≤ 1)%nat → (c0 ≤ 1)%nat →
  ∃ buf', imul_view r0 c0 buf = Ret buf'
    ∧ shape buf' = shape buf
    ∧ (∀ i j, (i < h)%nat → (j < w)%nat →
         get2 buf' (2 * i) (2 * j) = cell_product r0 c0 buf (i, j))
    ∧ (∀ r c, Nat.odd r = true ∨ Nat.odd c = true → get2 buf' r c = get2 buf r c).
Proof.
  intros Hs Hpos Hr0 Hc0. unfold imul_view.
  rewrite decide_True by (by rewrite !(shape_slice2 _ h w)).
  eexists. split; [reflexivity|]. split; [apply shape_foldl_imul|]. split.
  - intros i j Hi Hj.
    apply (get2_foldl_imul_hit r0 c0 _ buf (i, j)); [done..|apply NoDup_cells|].
    apply elem_of_cells. simpl.
    pose proof (shape_slice2 buf h w 0 0 Hs) as Hs0.
    assert (length (slice2 0 0 buf) = h) as ->.
    { rewrite <- (length_replicate h w), <- Hs0. unfold shape. by rewrite length_map. }
    split; [done|].
    destruct (slice2 0 0 buf) as [|row rest] eqn:Hsl.
    + destruct h; [lia|done].
    + simpl. destruct h; [lia|]. simpl in Hs0. by injection Hs0 as -> _.
  - intros r c Hodd. apply get2_foldl_imul_other.
    intros ij _ [= Hr Hc].
    destruct Hodd as [Ho|Ho]; apply Nat.odd_spec in Ho as [k Hk]; lia.
Qed.

Lemma zip_with_map_seq {A B C} (F : A → B → C) (f : nat → A) (g : nat → B) (l : list nat) :
  zip_with F (map f l) (map g l) = map (λ i, F (f i) (g i)) l.
Proof. induction l as [|x t IH]; simpl; [done|]. by rewrite IH. Qed.

Lemma mul_u8_fromfunction (f g : nat → nat → Z) (h w : nat) :
  mul_u8 (fromfunction f h w) (fromfunction g h w)
  = fromfunction (λ r c, (f r c * g r c) mod 256) h w.
Proof.
  unfold mul_u8, fromfunction. rewrite zip_with_map_seq.
  apply map_ext. intros r.
  exact (zip_with_map_seq (λ x y, (x * y) mod 256) (f r) (g r) (seq 0 w)).
Qed.

Lemma shape_fromfunction (f : nat → nat → Z) (h w : nat) :
  shape (fromfunction f h w) = replicate h w.
Proof.
  unfold shape, fromfunction. rewrite map_map.
  rewrite (map_ext _ (λ _, w)) by (intros; by rewrite length_map, length_seq).
  generalize 0%nat. induction h as [|h IH]; intros s; simpl; [done|]. by rewrite IH.
Qed.

Lemma get2_fromfunction (f : nat → nat → Z) (h w r c : nat) :
  (r < h)%nat → (c < w)%nat → get2 (fromfunction f h w) r c = Some (f r c).
Proof.
  intros Hr Hc. unfold get2, fromfunction.
  change (map ?F ?l) with (F <$> l).
  rewrite list_lookup_fmap, lookup_seq_lt by done. simpl.
  change (map ?F ?l) with (F <$> l).
  by rewrite list_lookup_fmap, lookup_seq_lt.
Qed.

(** The unbinned shadow mask: 800 by 800, with pixels 0 and 1. *)
Lemma shadow_mask_unbinned (fx fy : nat → nat → bool) :
  let maskarr := mul_u8 (clipped_edge fx) (clipped_edge fy) in
  shape maskarr = replicate 800 800%nat
  ∧ ∀ r c, (r < 800)%nat → (c < 800)%nat →
      get2 maskarr r c = Some (Z.b2z (fx r c && fy r c)).
Proof.
  intros maskarr. subst maskarr. unfold clipped_edge.
  rewrite mul_u8_fromfunction. split; [apply shape_fromfunction|].
  intros r c Hr Hc. rewrite get2_fromfunction by done.
  by destruct (fx r c), (fy r c).
Qed.

(** The three in-place products and the copy, on an array of even
    dimensions: the pixel [(i, j)] of the result is the product, in
    [uint8] arithmetic, of the four pixels of the block. *)
Lemma bin_maskarr_product (h w : nat) (maskarr : list (list Z)) :
  shape maskarr = replicate (2 * h) (2 * w)%nat →
  ∃ b, bin_maskarr maskarr = Ret b
    ∧ shape b = replicate h w
    ∧ ∀ i j, (i < h)%nat → (j < w)%nat →
        ∃ a00 a10 a01 a11,
          get2 maskarr (2 * i) (2 * j) = Some a00
          ∧ get2 maskarr (2 * i + 1) (2 * j) = Some a10
          ∧ get2 maskarr (2 * i) (2 * j + 1) = Some a01
          ∧ get2 maskarr (2 * i + 1) (2 * j + 1) = Some a11
          ∧ get2 b i j = Some ((((a00 * a10) mod 256 * a01) mod 256 * a11) mod 256).
Proof.
  intros Hs. unfold bin_maskarr.
  destruct (imul_view_spec 1 0 h w maskarr Hs) as (buf1 & -> & Hs1 & Hhit1 & Hodd1);
    [lia..|].
  rewrite Hs in Hs1.
  destruct (imul_view_spec 0 1 h w buf1 Hs1) as (buf2 & -> & Hs2 & Hhit2 & Hodd2);
    [lia..|].
  rewrite Hs1 in Hs2.
  destruct (imul_view_spec 1 1 h w buf2 Hs2) as (buf3 & -> & Hs3 & Hhit3 & Hodd3);
    [lia..|].
  rewrite Hs2 in Hs3.
  eexists. split; [reflexivity|]. split; [by apply shape_slice2|].
  intros i j Hi Hj.
  destruct (get2_in_shape maskarr _ _ (2 * i) (2 * j) Hs) as [a00 H00]; [lia..|].
  destruct (get2_in_shape maskarr _ _ (2 * i + 1) (2 * j) Hs) as [a10 H10]; [lia..|].
  destruct (get2_in_shape maskarr _ _ (2 * i) (2 * j + 1) Hs) as [a01 H01]; [lia..|].
  destruct (get2_in_shape maskarr _ _ (2 * i + 1) (2 * j + 1) Hs) as [a11 H11]; [lia..|].
  exists a00, a10, a01, a11. repeat (split; [done|]).
  assert (∀ n, Nat.odd (2 * n + 1) = true) as Hodd.
  { intros n. apply Nat.odd_spec. by exists n. }
  rewrite get2_slice2, Hhit3 by done. unfold cell_product. cbn [fst snd].
  rewrite (Hodd2 (2 * i + 1)%nat (2 * j + 1)%nat) by (left; apply Hodd).
  rewrite (Hodd1 (2 * i + 1)%nat (2 * j + 1)%nat) by (left; apply Hodd).
  rewrite Hhit2 by done. unfold cell_product. cbn [fst snd].
  replace (2 * i + 0)%nat with (2 * i)%nat by lia.
  rewrite (Hodd1 (2 * i)%nat (2 * j + 1)%nat) by (right; apply Hodd).
  rewrite Hhit1 by done. unfold cell_product. cbn [fst snd].
  replace (2 * j + 0)%nat with (2 * j)%nat by lia.
  by rewrite H00, H10, H01, H11.
Qed.

(** The names that [eval] resolves for the four detectors. *)
Lemma eval_func_detector `{ShadowEdges} (detnum axis : string) :
  detnum ∈ ["1"; "2"; "3"; "4"] → axis ∈ ["x"; "y"] →
  eval_func ("_func_Shadow_WF" +:+ detnum +:+ axis)
  = Ret (reaches_one ("_func_Shadow_WF" +:+ detnum +:+ axis)).
Proof.
  intros Hd Ha.
  repeat (apply elem_of_cons in Hd as [->|Hd]);
    try (by apply elem_of_nil in Hd);
    repeat (apply elem_of_cons in Ha as [->|Ha]);
    try (by apply elem_of_nil in Ha); reflexivity.
Qed.

(** C8.  For a detector of the camera and [binned != 1], the binned shadow
    mask is 400 by 400, half of the 800 by 800 of the unbinned mask, and its
    pixel [(i, j)] is 1 if and only if the four unbinned pixels [(2i, 2j)],
    [(2i+1, 2j)], [(2i, 2j+1)] and [(2i+1, 2j+1)] are 1; the products are
    done in place through the view [maskarr[::2, ::2]]. *)

(** A product of four pixels that are 0 or 1, in [uint8] arithmetic. *)
Lemma product_is_one_iff (b00 b10 b01 b11 : bool) :
  (((Z.b2z b00 * Z.b2z b10) mod 256 * Z.b2z b01) mod 256 * Z.b2z b11) mod 256 = 1
  ↔ Z.b2z b00 = 1 ∧ Z.b2z b10 = 1 ∧ Z.b2z b01 = 1 ∧ Z.b2z b11 = 1.
Proof.
  destruct b00, b10, b01, b11; vm_compute;
    split; (intros (? & ? & ? & ?) || intros ?); repeat split; congruence.
Qed.

Lemma in_xy_x : "x" ∈ ["x"; "y"]. Proof. set_solver. Qed.
Lemma in_xy_y : "y" ∈ ["x"; "y"]. Proof. set_solver. Qed.
(** C8.  For a detector of the camera and [binned != 1], the binned shadow
    mask is 400 by 400, half of the 800 by 800 of the unbinned mask, and its
    pixel [(i, j)] is 1 if and only if the four unbinned pixels [(2i, 2j)],
    [(2i+1, 2j)], [(2i, 2j+1)] and [(2i+1, 2j+1)] are 1; the products are
    done in place through the view [maskarr[::2, ::2]]. *)
Theorem binned_shadow_mask `{ShadowEdges} (detnum : string) (binned : Z) :
  detnum ∈ ["1"; "2"; "3"; "4"] → binned ≠ 1 →
  ∃ maskarr b,
    shadow_maskarr detnum 1 = Ret maskarr
    ∧ shadow_maskarr detnum binned = Ret b
    ∧ shape maskarr = replicate 800 800%nat
    ∧ shape b = replicate 400 400%nat
    ∧ ∀ i j, (i < 400)%nat → (j < 400)%nat →
        ∃ v a00 a10 a01 a11,
          get2 b i j = Some v
          ∧ get2 maskarr (2 * i) (2 * j) = Some a00
          ∧ get2 maskarr (2 * i + 1) (2 * j) = Some a10
          ∧ get2 maskarr (2 * i) (2 * j + 1) = Some a01
          ∧ get2 maskarr (2 * i + 1) (2 * j + 1) = Some a11
          ∧ (v = 1 ↔ a00 = 1 ∧ a10 = 1 ∧ a01 = 1 ∧ a11 = 1).
Proof.
  intros Hdet Hbin. unfold shadow_maskarr.
  destruct (eval_func ("_func_Shadow_WF" +:+ detnum +:+ "x")) as [fx|e] eqn:Ex;
    [|by rewrite (eval_func_detector detnum "x" Hdet in_xy_x) in Ex].
  destruct (eval_func ("_func_Shadow_WF" +:+ detnum +:+ "y")) as [fy|e] eqn:Ey;
    [|by rewrite (eval_func_detector detnum "y" Hdet in_xy_y) in Ey].
  clear Ex Ey.
  destruct (decide (1 ≠ 1)) as [Hne|_]; [by destruct Hne|].
  destruct (decide (binned ≠ 1)) as [_|Hne]; [|by destruct Hne].
  destruct (shadow_mask_unbinned fx fy) as [Hshape Hpix].
  destruct (bin_maskarr_product 400 400 _ Hshape) as (b & Hb & Hsb & Hprod).
  exists (mul_u8 (clipped_edge fx) (clipped_edge fy)), b.
  split; [reflexivity|]. split; [exact Hb|]. split; [exact Hshape|]. split; [exact Hsb|].
  intros i j Hi Hj.
  destruct (Hprod i j Hi Hj) as (a00 & a10 & a01 & a11 & H00 & H10 & H01 & H11 & Hv).
  exists ((((a00 * a10) mod 256 * a01) mod 256 * a11) mod 256), a00, a10, a01, a11.
  split; [exact Hv|]. split; [exact H00|]. split; [exact H10|].
  split; [exact H01|]. split; [exact H11|].
  rewrite Hpix in H00, H10, H01, H11 by lia.
  injection H00 as <-. injection H10 as <-. injection H01 as <-. injection H11 as <-.
  apply product_is_one_iff.
Qed.

Lemma binned_shadow_mask_witness :
  ∃ maskarr b,
    @shadow_maskarr edges_from_50 "2" 1 = Ret maskarr
    ∧ @shadow_maskarr edges_from_50 "2" 2 = Ret b
    ∧ shape maskarr = replicate 800 800%nat
    ∧ shape b = replicate 400 400%nat
    ∧ ∀ i j, (i < 400)%nat → (j < 400)%nat →
        ∃ v a00 a10 a01 a11,
          get2 b i j = Some v
          ∧ get2 maskarr (2 * i) (2 * j) = Some a00
          ∧ get2 maskarr (2 * i + 1) (2 * j) = Some a10
          ∧ get2 maskarr (2 * i) (2 * j + 1) = Some a01
          ∧ get2 maskarr (2 * i + 1) (2 * j + 1) = Some a11
          ∧ (v = 1 ↔ a00 = 1 ∧ a10 = 1 ∧ a01 = 1 ∧ a11 = 1).
Proof.
  apply (@binned_shadow_mask edges_from_50 "2" 2).
  - apply elem_of_cons; right. apply elem_of_cons; by left.
  - lia.
Defined.

(** The same loop on a small array: the aliasing through the view does no harm. *)
Example bin_maskarr_4x4 :
  bin_maskarr [[1; 1; 1; 1]; [1; 1; 0; 1]; [1; 1; 1; 1]; [1; 0; 1; 1]] = Ret [[1; 0]; [0; 1]].
Proof. reflexivity. Qed.


(** *** Failures while a mask file is built *)

(** [buildMaskImage]: when the body of the [try] raises, the output file is
    absent afterwards, the warning that names the input is the last thing
    printed, and the value is [None]. *)
Lemma buildMaskImage_failure (rootname : string) (bitvalue : option Z) (output : string)
    (extname : string) (extver : Z) (w : world) (fdq : list hdu) (e : exn) (w2 : world) :
  let w1 := if findFile output w then removeFile output w else w in
  openImage rootname w1 = Ret fdq →
  buildMaskImage_try fdq bitvalue output extname extver w1 = (Raise e, w2) →
  ∃ w', buildMaskImage rootname bitvalue output extname extver w = (Ret None, w')
        ∧ files w' !! output = None
        ∧ List.last (stdout w') ""
          = nl +:+ "Warning: Problem creating MASK file for " +:+ rootname +:+ "." +:+ nl.
Proof.
  intros w1 Hopen Htry. unfold buildMaskImage. fold w1. rewrite Hopen, Htry.
  eexists. split; [reflexivity|]. split.
  - unfold findFile. destruct (bool_decide_reflect (is_Some (files w2 !! output))) as [Hs|Hn].
    + simpl. apply lookup_delete_eq.
    + simpl. by apply eq_None_not_Some.
  - unfold print. simpl. apply last_last.
Qed.

Lemma buildMaskImage_failure_witness :
  ∃ w', buildMaskImage "j8c0d1bwq_flt.fits" (Some 8) "j8c0d1bwq_mask.fits" "DQ" 1 disk_no_dq
        = (Ret None, w')
        ∧ files w' !! "j8c0d1bwq_mask.fits" = None
        ∧ List.last (stdout w') ""
          = nl +:+ "Warning: Problem creating MASK file for " +:+ "j8c0d1bwq_flt.fits"
            +:+ "." +:+ nl.
Proof.
  apply (buildMaskImage_failure "j8c0d1bwq_flt.fits" (Some 8) "j8c0d1bwq_mask.fits" "DQ" 1
           disk_no_dq [HDU None None None] (Exception_ "") disk_no_dq); reflexivity.
Defined.

(** C7, the failing path.  In [buildShadowMaskImage], whenever the body of
    the second [try] raises (the DQ file is there and a bit selector is
    given), the handler raises [NameError] for [rootname]: the call returns
    no value and prints no warning, where [buildMaskImage] prints one and
    returns [None]. *)
Theorem buildShadowMaskImage_failure `{ShadowEdges} (dqfile detnum : string) (extnum : Z)
    (maskname : string) (bit binned : Z) (w : world) (fdq : list hdu) (e : exn) (w3 : world) :
  let w1 := if findFile maskname w then removeFile maskname w else w in
  openImage dqfile w1 = Ret fdq →
  buildShadowMaskImage_try fdq extnum (Some bit) maskname w1 = (Raise e, w3) →
  ∃ w', buildShadowMaskImage dqfile detnum extnum maskname (Some bit) binned w
        = (Raise (NameError "rootname"), w')
        ∧ stdout w' = stdout w.
Proof.
  intros w1 Hopen Htry. unfold buildShadowMaskImage. fold w1.
  assert (findFile dqfile w1 = true) as Hfound.
  { unfold findFile, openImage in *. destruct (files w1 !! dqfile); [|done].
    by apply bool_decide_eq_true_2. }
  rewrite Hfound. simpl. rewrite Hfound. simpl. rewrite Hopen, Htry.
  eexists. split; [reflexivity|].
  assert (stdout w3 = stdout w1) as Hout.
  { unfold buildShadowMaskImage_try in Htry.
    destruct (hdu_at fdq extnum); [|by injection Htry as _ <-].
    destruct (hdu_data a); [done|by injection Htry as _ <-]. }
  assert (stdout w1 = stdout w) as <- by (subst w1; by destruct (findFile maskname w)).
  rewrite <- Hout. by destruct (findFile maskname w3).
Qed.

(** The DQ file exists and has two units, a bit selector is given and unit
    3 is asked for: indexing raises inside the second [try]. *)
Lemma buildShadowMaskImage_failure_witness :
  ∃ w', @buildShadowMaskImage edges_from_50 "u2440101t.c1h" "3" 3 "u2440101t_inmask3.fits"
          (Some 8) 1 disk_one_group
        = (Raise (NameError "rootname"), w')
        ∧ stdout w' = stdout disk_one_group.
Proof.
  apply (@buildShadowMaskImage_failure edges_from_50 "u2440101t.c1h" "3" 3
           "u2440101t_inmask3.fits" 8 1 disk_one_group c1h_one_group IndexError
           disk_one_group); reflexivity.
Defined.

Example buildShadowMaskImage_error_raises `{ShadowEdges} :
  buildShadowMaskImage "u2440101t.c1h" "3" 3 "u2440101t_inmask3.fits" (Some 8) 1
    disk_one_group
  = (Raise (NameError "rootname"), disk_one_group).
Proof. reflexivity. Qed.

End BuildMaskSpec.

(** * Properties of lib/irData.py *)

Module IRDataSpec.
Import IRData.

Example isCountRate_bunit_only :
  isCountRate header_bunit = Raise (KeyError "BUINT").
Proof. reflexivity. Qed.

Example isCountRate_no_bunit : isCountRate ∅ = Ret (Some false).
Proof. reflexivity. Qed.

(** C10, counterexample.  A header that holds both ['BUNIT'] and ['BUINT'],
    the latter with a ["/"], makes [isCountRate] return [True]; it raises no
    [KeyError] although ['BUNIT'] is present. *)
Lemma isCountRate_True_counterexample :
  ¬ ((∀ header, isCountRate header ≠ Ret (Some true))
     ∧ (∀ header, is_Some (header !! "BUNIT") →
          isCountRate header = Raise (KeyError "BUINT"))).
Proof.
  intros [Hnever _]. by apply (Hnever header_both_keys).
Qed.

(** C10, amended.  [isCountRate] returns [False] for every header without
    ['BUNIT']; for a header with ['BUNIT'] it looks up ['BUINT']: it raises
    [KeyError] when that key is absent, returns [True] when its value is a
    string with a ["/"], and falls through with [None] when its value is a
    string without one.  It returns [True] for no other header. *)
Theorem isCountRate_cases (header : gmap string hval) :
  (header !! "BUNIT" = None → isCountRate header = Ret (Some false))
  ∧ (is_Some (header !! "BUNIT") → header !! "BUINT" = None →
       isCountRate header = Raise (KeyError "BUINT"))
  ∧ (∀ s, is_Some (header !! "BUNIT") → header !! "BUINT" = Some (HStr s) →
       isCountRate header = if has_slash s then Ret (Some true) else Ret None)
  ∧ (isCountRate header = Ret (Some true)
     ↔ is_Some (header !! "BUNIT")
       ∧ ∃ s, header !! "BUINT" = Some (HStr s) ∧ has_slash s = true).
Proof.
  unfold isCountRate. split; [|split; [|split; [|split]]].
  - intros Hno. rewrite bool_decide_eq_false_2; [done|]. rewrite Hno. by intros [? ?].
  - intros Hb Hu. by rewrite bool_decide_eq_true_2, Hu.
  - intros s Hb Hu. by rewrite bool_decide_eq_true_2, Hu.
  - destruct (bool_decide_reflect (is_Some (header !! "BUNIT"))) as [Hb|Hb]; [|intros [=]].
    destruct (header !! "BUINT") as [[s|z]|]; try done.
    destruct (has_slash s) eqn:Hs; [|done]. intros _. split; [done|]. by exists s.
  - intros (Hb & s & Hu & Hs). by rewrite bool_decide_eq_true_2, Hu, Hs.
Qed.

End IRDataSpec.

(** * Properties of drizzlepac/runaligndriz.py *)

Module RunAlignDrizSpec.
Import RunAlignDriz.

(** ** The string functions on the names the module builds *)

Example str_replace_trailer : str_replace ".tra" "_tmp.tra" "j8c0d1.tra" = "j8c0d1_tmp.tra".
Proof. reflexivity. Qed.

Example str_replace_every_occurrence : str_replace "ab" "x" "abcabab" = "xcxx".
Proof. reflexivity. Qed.

Example str_endswith_flt : str_endswith "_flt.fits" "j8c0d1bwq_flt.fits" = true.
Proof. reflexivity. Qed.

Example substr_in_drc : substr_in "drc" "j8c0d1_drc.fits" = true
                        ∧ substr_in "drc" "j8c0d1_drz.fits" = false.
Proof. split; reflexivity. Qed.

Example _timestamp_dashes :
  @_timestamp collab_sim_2 "Align_to_GAIA started "
  = "2019268Align_to_GAIA started --------------------------------------" +:+ nl.
Proof. reflexivity. Qed.

(** ** The working directory *)

Create HintDb place.

Lemma stays_put_ret {A} (a : A) : stays_put (ret a).
Proof. by intros w. Qed.

Lemma stays_put_raise {A} (e : exn) : stays_put (@raise A e).
Proof. by intros w. Qed.

Lemma stays_put_lift {A} (r : result A) : stays_put (lift r).
Proof. by intros w. Qed.

Lemma stays_put_bind {A B} (m : M A) (k : A → M B) :
  stays_put m → (∀ a, stays_put (k a)) → stays_put (bind m k).
Proof.
  intros Hm Hk w. unfold bind. specialize (Hm w).
  destruct (m w) as [[a|e] w1]; simpl in *; [|done].
  destruct Hm as [Hm1 Hm2], (Hk a w1) as [H1 H2]. split; congruence.
Qed.

Lemma stays_put_try_except {A} (m : M A) (h : exn → M A) :
  stays_put m → (∀ e, stays_put (h e)) → stays_put (try_except m h).
Proof.
  intros Hm Hh w. unfold try_except. specialize (Hm w).
  destruct (m w) as [[a|e] w1]; simpl in *; [done|].
  destruct Hm as [Hm1 Hm2], (Hh e w1) as [H1 H2]. split; congruence.
Qed.

Lemma stays_put_for_each {A} (f : A → M unit) (l : list A) :
  (∀ x, stays_put (f x)) → stays_put (for_each f l).
Proof.
  intros Hf. induction l as [|x t IH]; simpl; [apply stays_put_ret|].
  apply stays_put_bind; auto.
Qed.

Lemma stays_put_call `{Collaborators} {A} (f : ext A) : stays_put (call f).
Proof. intros w. unfold call. by destruct (f (cwd w) (files w)). Qed.

Lemma stays_put_getcwd : stays_put getcwd.
Proof. by intros w. Qed.

Lemma stays_put_isdir d : stays_put (isdir d).
Proof. by intros w. Qed.

Lemma stays_put_is_readonly d : stays_put (is_readonly d).
Proof. by intros w. Qed.

Lemma stays_put_lookup_file d name : stays_put (lookup_file d name).
Proof. by intros w. Qed.

#[local] Hint Resolve stays_put_ret stays_put_raise stays_put_lift stays_put_call
  stays_put_getcwd stays_put_isdir stays_put_is_readonly stays_put_lookup_file : place.

(** The steps of a proof that a composed computation stays in place. *)
Ltac stays_put_step :=
  match goal with
  | |- stays_put (bind _ _) => apply stays_put_bind
  | |- stays_put (try_except _ _) => apply stays_put_try_except
  | |- stays_put (for_each _ _) => apply stays_put_for_each
  | |- stays_put (if ?b then _ else _) => destruct b
  | |- stays_put (match ?x with _ => _ end) => destruct x
  | |- stays_put (let _ := _ in _) => cbv zeta
  | |- ∀ _, _ => intro
  end.

Ltac solve_stays_put := repeat stays_put_step; eauto with place.

Lemma stays_put_store d name text : stays_put (store d name text).
Proof. unfold store. solve_stays_put; by intros w. Qed.
#[local] Hint Resolve stays_put_store : place.

Lemma stays_put_path_exists name : stays_put (path_exists name).
Proof. unfold path_exists. solve_stays_put. Qed.
#[local] Hint Resolve stays_put_path_exists : place.

Lemma stays_put_read_file name : stays_put (read_file name).
Proof. unfold read_file. solve_stays_put. Qed.

Lemma stays_put_write_file name text : stays_put (write_file name text).
Proof. unfold write_file. solve_stays_put. Qed.

Lemma stays_put_append_file name text : stays_put (append_file name text).
Proof. unfold append_file. solve_stays_put. Qed.

Lemma stays_put_remove name : stays_put (remove name).
Proof. unfold remove. solve_stays_put; by intros w. Qed.
#[local] Hint Resolve stays_put_read_file stays_put_write_file stays_put_append_file
  stays_put_remove : place.

Lemma stays_put_shutil_copy src dst : stays_put (shutil_copy src dst).
Proof. unfold shutil_copy. solve_stays_put. Qed.
#[local] Hint Resolve stays_put_shutil_copy : place.

Lemma stays_put_shutil_copy_rel src name : stays_put (shutil_copy_rel src name).
Proof. unfold shutil_copy_rel. solve_stays_put. Qed.
#[local] Hint Resolve stays_put_shutil_copy_rel : place.

Section WithCollaborators.
Context `{Collaborators}.

Lemma stays_put__appendTrlFile trlfile drizfile : stays_put (_appendTrlFile trlfile drizfile).
Proof. unfold _appendTrlFile. solve_stays_put. Qed.
Hint Resolve stays_put__appendTrlFile : place.

Lemma stays_put__updateTrlFile trlfile lines : stays_put (_updateTrlFile trlfile lines).
Proof. unfold _updateTrlFile. solve_stays_put. Qed.
Hint Resolve stays_put__updateTrlFile : place.

Lemma stays_put_run_driz_except trlfile drizlog err infile e :
  stays_put (run_driz_except trlfile drizlog err infile e).
Proof. unfold run_driz_except. solve_stays_put. Qed.
Hint Resolve stays_put_run_driz_except : place.

Lemma stays_put_run_driz_loop trlfile pars drizlog inlist :
  ∀ drz_products focus_dicts,
    stays_put (run_driz_loop trlfile pars drizlog inlist drz_products focus_dicts).
Proof.
  induction inlist as [|infile rest IH]; intros drz_products focus_dicts; simpl.
  - apply stays_put_ret.
  - solve_stays_put.
Qed.

Lemma stays_put_run_driz inlist trlfile pars : stays_put (run_driz inlist trlfile pars).
Proof. unfold run_driz. apply stays_put_run_driz_loop. Qed.
Hint Resolve stays_put_run_driz : place.

Lemma stays_put_apply_headerlets table pairs :
  ∀ msg, stays_put (apply_headerlets table pairs msg).
Proof.
  induction pairs as [|[flt flc] rest IH]; intros msg; simpl.
  - apply stays_put_ret.
  - solve_stays_put.
Qed.
Hint Resolve stays_put_apply_headerlets : place.

Lemma stays_put_align_aposteriori trlfile alignfiles updfiles :
  stays_put (align_aposteriori trlfile alignfiles updfiles).
Proof. unfold align_aposteriori. solve_stays_put. Qed.
Hint Resolve stays_put_align_aposteriori : place.

Lemma stays_put_wcs_correction mode trlfile calfiles flc alignfiles updfiles :
  stays_put (wcs_correction mode trlfile calfiles flc alignfiles updfiles).
Proof. unfold wcs_correction. solve_stays_put. Qed.
Hint Resolve stays_put_wcs_correction : place.

Lemma stays_put_check_similarity force fd verified msg :
  stays_put (check_similarity force fd verified msg).
Proof. unfold check_similarity. solve_stays_put. Qed.
Hint Resolve stays_put_check_similarity : place.

Lemma stays_put_save_products parent calfiles flc prods :
  stays_put (save_products parent calfiles flc prods).
Proof. unfold save_products. solve_stays_put. Qed.
Hint Resolve stays_put_save_products : place.

Lemma stays_put_in_tmpdir parent inlist calfiles flc trlfile mode force pars :
  stays_put (in_tmpdir parent inlist calfiles flc trlfile mode force pars).
Proof. unfold in_tmpdir. solve_stays_put. Qed.

End WithCollaborators.

Section Verification.
Context `{Collaborators}.

Lemma chdir_dirs d w : dirs (chdir d w).2 = dirs w.
Proof. unfold chdir. by destruct (bool_decide (d ∈ dirs w)). Qed.

Lemma chdir_rel_dirs name w : dirs (chdir_rel name w).2 = dirs w.
Proof. unfold chdir_rel, bind, getcwd. apply chdir_dirs. Qed.

Lemma chdir_in d w : d ∈ dirs w → chdir d w = (Ret (), World d (dirs w) (readonly w) (files w)).
Proof. intros Hd. unfold chdir. by rewrite bool_decide_eq_true_2. Qed.

Lemma makedirs_place name : may_mkdir (makedirs name).
Proof.
  intros w. unfold makedirs, bind, getcwd, is_readonly, path_exists, isdir, lookup_file, ret.
  simpl. destruct (_ || _); simpl; [done|]. split; [done|]. set_solver.
Qed.

Lemma may_mkdir_of_stays_put {A} (m : M A) : stays_put m → may_mkdir m.
Proof. intros Hm w. destruct (Hm w) as [H1 H2]. split; [done|]. by rewrite H2. Qed.

Lemma may_mkdir_bind {A B} (m : M A) (k : A → M B) :
  may_mkdir m → (∀ a, may_mkdir (k a)) → may_mkdir (bind m k).
Proof.
  intros Hm Hk w. unfold bind. specialize (Hm w).
  destruct (m w) as [[a|e] w1]; simpl in *; [|done].
  destruct Hm as [Hm1 Hm2], (Hk a w1) as [H1 H2]. split; [congruence|set_solver].
Qed.

Lemma stage_files_place inlist calfiles flc tmpdir :
  may_mkdir (stage_files inlist calfiles flc tmpdir).
Proof.
  unfold stage_files.
  apply may_mkdir_bind; [apply may_mkdir_of_stays_put; solve_stays_put|]. intros there.
  apply may_mkdir_bind.
  { destruct (negb there); [apply makedirs_place|apply may_mkdir_of_stays_put; solve_stays_put]. }
  intros _. apply may_mkdir_of_stays_put. solve_stays_put.
Qed.

(** C4.  Whatever the arguments, the collaborators and the way the call
    ends (a value, the early [return None] of the a-posteriori branch, or an
    exception), the working directory after [verify_alignment] is the one
    before it, provided that directory exists when the call starts. *)
Theorem verify_alignment_restores_cwd (inlist calfiles calfiles_flc : list string)
    (trlfile : string) (find_crs : bool) (tmpdir : string) (alignment_mode : option string)
    (force_alignment : bool) (pipeline_pars : gmap string pval) (w : world) :
  cwd w ∈ dirs w →
  cwd (verify_alignment inlist calfiles calfiles_flc trlfile find_crs tmpdir
         alignment_mode force_alignment pipeline_pars w).2 = cwd w.
Proof.
  intros Hcwd. unfold verify_alignment.
  destruct (stage_files_place inlist calfiles calfiles_flc tmpdir w) as [Hc Hd].
  destruct (stage_files inlist calfiles calfiles_flc tmpdir w) as [[[]|e] w1];
    simpl in Hc, Hd; [|exact Hc].
  set (body := bind (chdir_rel tmpdir) _).
  assert (dirs (body w1).2 = dirs w1) as Hbody.
  { subst body. unfold bind.
    pose proof (chdir_rel_dirs tmpdir w1) as Hch.
    destruct (chdir_rel tmpdir w1) as [[[]|e] w2]; simpl in Hch |- *; [|exact Hch].
    rewrite <- Hch. apply stays_put_in_tmpdir. }
  destruct (body w1) as [outcome w2]. simpl in Hbody.
  unfold finally_chdir, bind. rewrite chdir_in by (rewrite Hbody, Hc; by apply Hd).
  unfold lift. simpl. done.
Qed.

(** C9.  When staging raises (the temporary directory cannot be created or
    an input cannot be copied), [parent_dir] is still unbound: the [finally]
    clause raises [UnboundLocalError], a [NameError], and that is the
    exception the caller sees instead of the one staging raised.  The
    working directory has not been changed. *)
Theorem staging_error_replaced (inlist calfiles calfiles_flc : list string)
    (trlfile : string) (find_crs : bool) (tmpdir : string) (alignment_mode : option string)
    (force_alignment : bool) (pipeline_pars : gmap string pval) (w w1 : world) (e : exn) :
  stage_files inlist calfiles calfiles_flc tmpdir w = (Raise e, w1) →
  verify_alignment inlist calfiles calfiles_flc trlfile find_crs tmpdir
    alignment_mode force_alignment pipeline_pars w
  = (Raise (UnboundLocalError "parent_dir"), w1)
  ∧ isinstance_NameError (UnboundLocalError "parent_dir") = true
  ∧ cwd w1 = cwd w.
Proof.
  intros Hst. unfold verify_alignment. rewrite Hst. split; [done|]. split; [done|].
  pose proof (stage_files_place inlist calfiles calfiles_flc tmpdir w) as [Hc _].
  by rewrite Hst in Hc.
Qed.

Lemma bind_Ret {A B} (m : M A) (k : A → M B) (w w' : world) (b : B) :
  bind m k w = (Ret b, w') → ∃ a w1, m w = (Ret a, w1) ∧ k a w1 = (Ret b, w').
Proof.
  unfold bind. destruct (m w) as [[a|e] w1]; [|done]. intros Hk. by exists a, w1.
Qed.

Lemma select_focus_nonempty fds fd : select_focus fds = Ret fd → fds ≠ [].
Proof. by destruct fds. Qed.

(** A value that [in_tmpdir] returns in a mode other than ['aposteriori']
    is a list of focus dictionaries that is not empty, whatever the verdict. *)
Lemma in_tmpdir_truthy parent inlist calfiles flc trlfile mode force pars w r w' :
  mode ≠ Some "aposteriori" →
  in_tmpdir parent inlist calfiles flc trlfile mode force pars w = (Ret r, w') →
  truthy r = true.
Proof.
  intros Hmode Hrun. unfold in_tmpdir in Hrun.
  apply bind_Ret in Hrun as (there & w1 & _ & Hrun).
  apply bind_Ret in Hrun as (fl & w2 & Hwcs & Hrun).
  assert (fl = GoOn) as ->.
  { unfold wcs_correction in Hwcs.
    destruct (bool_decide (mode = Some "apriori")).
    - apply bind_Ret in Hwcs as (? & ? & _ & Hwcs).
      apply bind_Ret in Hwcs as (? & ? & _ & Hwcs). by injection Hwcs as <-.
    - rewrite bool_decide_eq_false_2 in Hwcs by done. by injection Hwcs as <-. }
  apply bind_Ret in Hrun as (driz & w3 & _ & Hrun).
  apply bind_Ret in Hrun as (fd & w4 & Hsel & Hrun).
  apply bind_Ret in Hrun as (verified & w5 & _ & Hrun).
  apply bind_Ret in Hrun as (scored & w6 & _ & Hrun).
  apply bind_Ret in Hrun as (msg & w7 & _ & Hrun).
  apply bind_Ret in Hrun as (? & w8 & _ & Hrun).
  injection Hrun as <- _.
  unfold lift in Hsel. injection Hsel as Hsel _.
  apply select_focus_nonempty in Hsel. simpl. by destruct (driz.2).
Qed.

(** In a mode other than ['aposteriori'], [verify_alignment] has no way to
    tell its caller that the attempt was rejected: what it returns is true
    in a condition. *)
Lemma verify_alignment_truthy inlist calfiles flc trlfile find_crs tmpdir mode force pars
    w r w' :
  mode ≠ Some "aposteriori" →
  verify_alignment inlist calfiles flc trlfile find_crs tmpdir mode force pars w = (Ret r, w') →
  truthy r = true.
Proof.
  intros Hmode. unfold verify_alignment.
  destruct (stage_files inlist calfiles flc tmpdir w) as [[[]|e] w1]; [|done].
  destruct (bind (chdir_rel tmpdir) _ w1) as [outcome w2] eqn:Hbody.
  unfold finally_chdir. intros Hfin.
  apply bind_Ret in Hfin as (? & w3 & _ & Hfin).
  unfold lift in Hfin. injection Hfin as -> _.
  apply bind_Ret in Hbody as (? & w4 & _ & Hbody).
  by eapply in_tmpdir_truthy.
Qed.

(** A similarity index above 1 clears [alignment_verified], with and
    without [force_alignment]. *)
Lemma check_similarity_fail force fd verified msg w scored w' :
  (∀ a b q, compute_similarity a b = Ret q → Qle_bool q 1 = false) →
  check_similarity force fd verified msg w = (Ret scored, w') →
  scored.1 = false.
Proof.
  intros Hsim Hrun. unfold check_similarity in Hrun.
  apply bind_Ret in Hrun as (alignprod & w1 & _ & Hrun).
  apply bind_Ret in Hrun as (d & w2 & _ & Hrun).
  apply bind_Ret in Hrun as (ref & w3 & _ & Hrun).
  destruct ref as [align_ref|]; [|done].
  apply bind_Ret in Hrun as (sim & w4 & Hs & Hrun).
  unfold lift in Hs. injection Hs as Hs _. rewrite (Hsim _ _ _ Hs) in Hrun. simpl in Hrun.
  destruct force; by injection Hrun as <- _.
Qed.

(** The loop over the alignment table stops at a row exactly when some row
    has a status other than 0. *)
Lemma scan_align_table_NotAligned (rows : list align_row) :
  ∀ trlmsg, (∃ row, row ∈ rows ∧ status row ≠ 0)
            ↔ ∃ msg, scan_align_table rows trlmsg = NotAligned msg.
Proof.
  induction rows as [|row rest IH]; intros trlmsg; simpl.
  - split; [intros (row & Hin & _); by apply elem_of_nil in Hin|intros [msg [=]]].
  - destruct (Z.eqb_spec (status row) 0) as [Hz|Hnz].
    + rewrite <- IH. split.
      * intros (r & Hin & Hr). apply elem_of_cons in Hin as [->|Hin]; [done|]. by exists r.
      * intros (r & Hin & Hr). exists r. split; [by right|done].
    + split; [by eexists|]. intros _. exists row. split; [by left|done].
Qed.

(** When a row has failed, the a-posteriori branch ends with [return None]
    in the state the aligner left: the message of the loop is written
    nowhere. *)
Lemma align_aposteriori_failed_row trlfile alignfiles align_update_files
    (w w1 w2 : world) (align_table : list align_row) (row : align_row) :
  _updateTrlFile trlfile (_timestamp "Align_to_GAIA started ") w = (Ret (), w1) →
  call (perform_align alignfiles (str_replace ".tra" "_align.log" trlfile)) w1
  = (Ret align_table, w2) →
  row ∈ align_table → status row ≠ 0 →
  align_aposteriori trlfile alignfiles align_update_files w = (Ret ReturnNone, w2).
Proof.
  intros Hstart Halign Hin Hrow. unfold align_aposteriori.
  unfold bind at 1. rewrite Hstart. unfold bind at 1, try_except, bind at 1.
  rewrite Halign.
  destruct (proj1 (scan_align_table_NotAligned align_table
                     (_timestamp "Align_to_GAIA started ")))
    as [msg ->]; by eauto.
Qed.

End Verification.

(** The parent directory after [process] when the a-priori attempt is
    rejected: the products of the pipeline-default attempt. *)
Example process_default_then_rejected_apriori_files :
  map_to_list (dir_files ["data"]
    (@process collab_focus_fails inlist0 calfiles0 [] "j8c0d1.tra" PNone false false disk0).2)
  = [ (["data"], "j8c0d1_asn.fits", "asn");
      (["data"], "j8c0d1_drz.fits", "drizzled in pipeline-default");
      (["data"], "j8c0d1bwq_flt.fits", "flt+wcs") ].
Proof. vm_compute. reflexivity. Qed.

(** C1, at a failing input.  The pipeline-default attempt is accepted and
    the focus verdict of the a-priori attempt is a failure.  The a-priori
    call copies nothing into the parent directory, whose product stays the
    pipeline-default one; but it returns its list of focus dictionaries,
    which is true in a condition, and [process] takes it as [align_dicts]:
    the rejection is not signalled and the caller adopts the result of the
    rejected attempt. *)
Theorem process_adopts_rejected_attempt :
  let rejected := FocusDict "j8c0d1_drz.fits" "apriori" in
  let w1 := after_default collab_focus_fails in
  let attempt := @verify_alignment collab_focus_fails inlist0 calfiles0 [] "j8c0d1.tra" false "apriori"
                   (Some "apriori") false pipeline_pars0 w1 in
  let run := @process collab_focus_fails inlist0 calfiles0 [] "j8c0d1.tra" PNone false false disk0 in
  @evaluate_focus collab_focus_fails rejected = Ret false
  ∧ attempt.1 = Ret (Some [rejected])
  ∧ truthy (Some [rejected]) = true
  ∧ dir_files ["data"] attempt.2 = dir_files ["data"] w1
  ∧ run.1 = Ret (Some [rejected])
  ∧ files run.2 !! (["data"], "j8c0d1_drz.fits") = Some "drizzled in pipeline-default".
Proof.
  cbv zeta. split; [vm_compute; reflexivity|]. split; [vm_compute; reflexivity|].
  split; [reflexivity|]. split; [compute_done|]. split; [vm_compute; reflexivity|].
  compute_done.
Qed.

(** C2, at a failing input.  The a-priori attempt has a similarity index
    of 2 and [force_alignment] is set.  The trailer file of the attempt gets
    the warning that the solution is kept, but [alignment_verified] is
    false all the same: nothing is saved, the parent directory keeps the
    pipeline-default product and is left exactly as without the flag. *)
Theorem forced_alignment_not_kept :
  let w1 := after_default collab_sim_2 in
  let attempt (force_alignment : bool) :=
    @verify_alignment collab_sim_2 inlist0 calfiles0 [] "j8c0d1.tra" false "apriori"
      (Some "apriori") force_alignment pipeline_pars0 w1 in
  @compute_similarity collab_sim_2 "drizzled in apriori" "drizzled in pipeline-default" = Ret 2%Q
  ∧ (attempt true).1 = Ret (Some [FocusDict "j8c0d1_drz.fits" "apriori"])
  ∧ (∃ text, files (attempt true).2 !! (["data"; "apriori"], "j8c0d1.tra") = Some text
       ∧ substr_in "KEEPING potentially compromised astrometry solution!" text = true
       ∧ substr_in "Saving products with new alignment." text = false)
  ∧ files (attempt true).2 !! (["data"; "apriori"], "j8c0d1_drz.fits") = Some "drizzled in apriori"
  ∧ files (attempt true).2 !! (["data"], "j8c0d1_drz.fits") = Some "drizzled in pipeline-default"
  ∧ dir_files ["data"] (attempt true).2 = dir_files ["data"] w1
  ∧ dir_files ["data"] (attempt true).2 = dir_files ["data"] (attempt false).2.
Proof.
  cbv zeta. split; [reflexivity|]. split; [vm_compute; reflexivity|]. split.
  { eexists. split; [vm_compute; reflexivity|]. split; vm_compute; reflexivity. }
  split; [compute_done|]. split; [compute_done|]. split; compute_done.
Qed.

(** C3, at a failing input.  In a-posteriori mode the aligner returns one
    row with status 1.  [verify_alignment] returns [None], the parent
    directory and the working directory are as before, and no file at all
    holds the text "Could not align": the message is built and dropped. *)
Theorem failed_row_message_not_written :
  let w1 := after_default collab_row_fails in
  let run := @verify_alignment collab_row_fails inlist0 calfiles0 [] "j8c0d1.tra" false "aposteriori"
               (Some "aposteriori") false pipeline_pars0 w1 in
  run.1 = Ret None
  ∧ dir_files ["data"] run.2 = dir_files ["data"] w1
  ∧ cwd run.2 = cwd w1
  ∧ map_Forall (λ _ text, substr_in "Could not align" text = false) (files run.2).
Proof.
  cbv zeta. split; [vm_compute; reflexivity|]. split; [compute_done|].
  split; compute_done.
Qed.

(** When the aligner raises, the handler writes its message to the trailer
    file of the attempt and the call returns [None]. *)
Example aligner_exception_returns_None :
  let w1 := after_default collab_aligner_raises in
  let run := @verify_alignment collab_aligner_raises inlist0 calfiles0 [] "j8c0d1.tra" false "aposteriori"
               (Some "aposteriori") false pipeline_pars0 w1 in
  run.1 = Ret None
  ∧ dir_files ["data"] run.2 = dir_files ["data"] w1
  ∧ ∃ text, files run.2 !! (["data"; "aposteriori"], "j8c0d1.tra") = Some text
      ∧ substr_in "EXCEPTION encountered in alignimages..." text = true.
Proof.
  cbv zeta. split; [vm_compute; reflexivity|]. split; [compute_done|].
  eexists. split; vm_compute; reflexivity.
Qed.

Lemma verify_alignment_restores_cwd_witness :
  cwd (@verify_alignment collab_row_fails inlist0 calfiles0 [] "j8c0d1.tra" false "aposteriori"
         (Some "aposteriori") false pipeline_pars0 disk0).2 = cwd disk0.
Proof.
  apply (@verify_alignment_restores_cwd collab_row_fails). compute_done.
Defined.

Lemma staging_error_replaced_witness :
  @verify_alignment collab_focus_fails inlist0 calfiles0 [] "j8c0d1.tra" true "pipeline-default"
    None false pipeline_pars0 disk_readonly
  = (Raise (UnboundLocalError "parent_dir"), disk_readonly)
  ∧ isinstance_NameError (UnboundLocalError "parent_dir") = true
  ∧ cwd disk_readonly = cwd disk_readonly.
Proof.
  apply (@staging_error_replaced collab_focus_fails inlist0 calfiles0 [] "j8c0d1.tra" true
           "pipeline-default" None false pipeline_pars0 disk_readonly disk_readonly
           (IOError "makedirs")).
  vm_compute. reflexivity.
Defined.

(** Staging that fails on an input that does not exist. *)
Example staging_missing_input :
  (@verify_alignment collab_focus_fails ["j8c0d1_asn.fits"; "missing_flt.fits"] [] [] "j8c0d1.tra" true
     "pipeline-default" None false pipeline_pars0 disk0).1
  = Raise (UnboundLocalError "parent_dir").
Proof. vm_compute. reflexivity. Qed.

End RunAlignDrizSpec.
